(** * ZenBilling business service: invoice / quote core

    A shallow embedding of the monetary calculator, the sequence generator
    and the invoice and quote lifecycle operations of the service layer
    ([invoice.service.ts], [quote.service.ts], [company.service.ts]),
    followed by the properties established about them.  The embedding also
    covers the update of the company settings, the deletion of quotes and
    the rates of their statistics, the sending, payment, deletion and bulk
    actions of invoices, and the stock operations of the product service.

    Conventions of the embedding
    - JavaScript numbers that carry amounts are IEEE-754 binary64 values
      ([float], the primitive floats of Rocq), so that the arithmetic of the
      calculator is the arithmetic of the program.
    - Integer columns (counters, payment terms, sort orders) and instants
      (milliseconds since the epoch) are [Z]; on the safe-integer range the
      arithmetic of the program on them is exact.
    - Row identifiers are opaque keys handed out by the database; they are
      numbers drawn from a generator kept in the store.
    - Every reading of the clock ([new Date()], [Date.now()]) is a parameter
      of the operation that performs it.
    - Infrastructure failures (a rejected or failed database statement, a
      failed cache write) are described by a [Faults] record: one flag per
      input/output step of an operation, telling whether that step fails
      when it is reached.
    - The read-through cache is coherent with the database (every mutation
      invalidates it), so reads are served by the database. *)

From Stdlib Require Import ZArith String Ascii List Floats DecimalString DecimalZ
  DecimalPos.
From stdpp Require Import gmap strings list.
Import ListNotations.

Set Warnings "-inexact-float".

Local Open Scope Z_scope.

(** ** JavaScript values and operators used by the services *)

Module JS.

Definition number := float.

Definition NaN : number := nan.

(** [ToBoolean] on a number: [0], [-0] and [NaN] are falsy. *)
Definition truthy (x : number) : bool :=
  negb (PrimFloat.eqb x 0%float || PrimFloat.is_nan x).

(** [ToBoolean] on [number | undefined]. *)
Definition truthy_opt (o : option number) : bool :=
  match o with
  | Some x => truthy x
  | None => false
  end.

(** [ToNumber] on [number | undefined]. *)
Definition num (o : option number) : number :=
  match o with
  | Some x => x
  | None => NaN
  end.

(** [a || d] for [a : number | undefined] and a number [d]. *)
Definition or_num (o : option number) (d : number) : number :=
  if truthy_opt o then num o else d.

(** [a || d] on integers. *)
Definition or_int (o : option Z) (d : Z) : Z :=
  match o with
  | Some x => if Z.eqb x 0 then d else x
  | None => d
  end.

(** [a || d] for an optional string [a]: the empty string is falsy. *)
Definition or_string (o : option string) (d : string) : string :=
  match o with
  | Some EmptyString => d
  | Some s => s
  | None => d
  end.

(** [a || b] for two optional strings. *)
Definition or_string_opt (o : option string) (d : option string) : option string :=
  match o with
  | Some EmptyString => d
  | Some s => Some s
  | None => d
  end.

(** A field of a Prisma [update]: [undefined] leaves the column as it is. *)
Definition assign {A} (o : option A) (old : A) : A :=
  match o with
  | Some x => x
  | None => old
  end.

Definition assign_opt {A} (o : option A) (old : option A) : option A :=
  match o with
  | Some x => Some x
  | None => old
  end.

(** [a || d] for an optional object (a [Date]): every object is truthy. *)
Definition or_obj {A} (o : option A) (d : A) : A :=
  match o with
  | Some x => x
  | None => d
  end.

(** What a property read on an object literal can yield: a number stored
    in the literal, or a member inherited from [Object.prototype] (a
    function, or the prototype itself for [__proto__]). *)
Inductive value :=
| Num (x : number)
| Inherited (key : string).

Definition ToBoolean (v : value) : bool :=
  match v with
  | Num x => truthy x
  | Inherited _ => true
  end.

Definition ToNumber (v : value) : number :=
  match v with
  | Num x => x
  | Inherited _ => NaN
  end.

Definition object_prototype : list string :=
  [ "constructor"; "hasOwnProperty"; "isPrototypeOf"; "propertyIsEnumerable";
    "toLocaleString"; "toString"; "valueOf"; "__proto__";
    "__defineGetter__"; "__defineSetter__"; "__lookupGetter__";
    "__lookupSetter__" ]%string.

Fixpoint own (props : list (string * number)) (key : string) : option number :=
  match props with
  | [] => None
  | (k, x) :: rest => if String.eqb k key then Some x else own rest key
  end.

(** [obj[key]] on an object literal with own properties [props];
    [None] is [undefined]. *)
Definition get (props : list (string * number)) (key : string) : option value :=
  match own props key with
  | Some x => Some (Num x)
  | None =>
      if existsb (String.eqb key) object_prototype
      then Some (Inherited key)
      else None
  end.

(** [v || d] on the result of a property read. *)
Definition or_value (o : option value) (d : value) : value :=
  match o with
  | Some v => if ToBoolean v then v else d
  | None => d
  end.

(** [n.toString()] on an integer. *)
Definition toString (n : Z) : string :=
  NilZero.string_of_int (Z.to_int n).

Fixpoint repeat_string (pad : string) (k : nat) : string :=
  match k with
  | O => EmptyString
  | S k' => String.append pad (repeat_string pad k')
  end.

(** A Prisma [Decimal] column and its [toNumber()]. *)
Definition Decimal := number.
Definition toNumber (d : Decimal) : number := d.

(** [s.padStart(targetLength, pad)]. *)
Definition padStart (targetLength : nat) (pad : string) (s : string) : string :=
  let missing := (targetLength - String.length s)%nat in
  String.append (substring 0 missing (repeat_string pad missing)) s.

End JS.

(** ** Data model *)

Abbreviation uuid := N (only parsing).

(** An element of [request.items]. *)
Module Item.
Record t := mk {
  product_id : option uuid;
  name : string;
  description : option string;
  quantity : JS.number;
  unit : string;
  unit_price_excluding_tax : JS.number;
  discount_percentage : option JS.number;
  discount_amount : option JS.number;
  vat_rate : string;
  sort_order : option Z
}.
End Item.

(** [{...item, total_excluding_tax, total_including_tax}]. *)
Module CalculatedItem.
Record t := mk {
  item : Item.t;
  total_excluding_tax : JS.number;
  total_including_tax : JS.number
}.
End CalculatedItem.

Module Totals.
Record t := mk {
  totalExcludingTax : JS.number;
  totalTax : JS.number;
  totalIncludingTax : JS.number
}.
End Totals.

Module Calculated.
Record t := mk {
  items : list CalculatedItem.t;
  totals : Totals.t
}.
End Calculated.

(** Row of [companySettings]: the columns the sequence generator and the
    defaults use. *)
Module ICompanySettings.
Record t := mk {
  company_id : uuid;
  invoice_prefix : string;
  quote_prefix : string;
  next_invoice_number : Z;
  next_quote_number : Z;
  default_payment_terms : Z
}.
End ICompanySettings.

(** Row of [invoiceItem]. *)
Module IInvoiceItem.
Record t := mk {
  item_id : uuid;
  invoice_id : uuid;
  product_id : option uuid;
  name : option string;
  description : option string;
  quantity : JS.Decimal;
  unit : string;
  unit_price_excluding_tax : JS.Decimal;
  discount_percentage : option JS.Decimal;
  discount_amount : option JS.Decimal;
  vat_rate : string;
  total_excluding_tax : JS.Decimal;
  total_including_tax : JS.Decimal;
  sort_order : Z
}.
End IInvoiceItem.

(** Row of [invoice].  Free-text and presentation columns that are only
    copied through (reference, conditions, language, template, metadata,
    ...) are not carried. *)
Module InvoiceRow.
Record t := mk {
  invoice_id : uuid;
  customer_id : uuid;
  user_id : uuid;
  company_id : uuid;
  invoice_number : string;
  invoice_date : Z;
  due_date : Z;
  amount_excluding_tax : JS.Decimal;
  tax : JS.Decimal;
  amount_including_tax : JS.Decimal;
  discount_amount : JS.Decimal;
  discount_percentage : option JS.Decimal;
  shipping_cost : JS.Decimal;
  status : string;
  payment_status : string;
  payment_method : option string;
  currency : string;
  notes : option string
}.
End InvoiceRow.

(** An invoice as [getInvoiceById] returns it: the row with its items. *)
Module IInvoice.
Record t := mk {
  row : InvoiceRow.t;
  items : list IInvoiceItem.t
}.
Definition invoice_id (i : t) := InvoiceRow.invoice_id (row i).
Definition status (i : t) := InvoiceRow.status (row i).
Definition company_id (i : t) := InvoiceRow.company_id (row i).
End IInvoice.

(** Row of [quoteItem]. *)
Module IQuoteItem.
Record t := mk {
  item_id : uuid;
  quote_id : uuid;
  product_id : option uuid;
  name : option string;
  description : option string;
  quantity : JS.Decimal;
  unit : string;
  unit_price_excluding_tax : JS.Decimal;
  discount_percentage : option JS.Decimal;
  discount_amount : option JS.Decimal;
  vat_rate : string;
  total_excluding_tax : JS.Decimal;
  total_including_tax : JS.Decimal;
  sort_order : Z
}.
End IQuoteItem.

(** Row of [quote]. *)
Module QuoteRow.
Record t := mk {
  quote_id : uuid;
  customer_id : uuid;
  user_id : uuid;
  company_id : uuid;
  quote_number : string;
  quote_date : Z;
  validity_date : Z;
  amount_excluding_tax : JS.Decimal;
  tax : JS.Decimal;
  amount_including_tax : JS.Decimal;
  discount_amount : option JS.Decimal;
  discount_percentage : option JS.Decimal;
  shipping_cost : option JS.Decimal;
  status : string;
  currency : string;
  notes : option string;
  accepted_at : option Z;
  converted_to_invoice : bool;
  invoice_id : option uuid
}.
End QuoteRow.

(** A quote as [getQuoteById] returns it. *)
Module IQuote.
Record t := mk {
  row : QuoteRow.t;
  items : list IQuoteItem.t
}.
Definition status (q : t) := QuoteRow.status (row q).
Definition validity_date (q : t) := QuoteRow.validity_date (row q).
Definition converted_to_invoice (q : t) := QuoteRow.converted_to_invoice (row q).
Definition company_id (q : t) := QuoteRow.company_id (row q).
End IQuote.

Module IQuoteConversion.
Record t := mk {
  invoice_date : option Z;
  due_date : option Z;
  payment_terms : option Z;
  notes : option string;
  keep_original_items : bool;
  apply_current_prices : bool
}.
End IQuoteConversion.

Module ICreateInvoiceRequest.
Record t := mk {
  customer_id : uuid;
  invoice_date : Z;
  due_date : Z;
  discount_amount : option JS.number;
  discount_percentage : option JS.number;
  shipping_cost : option JS.number;
  currency : option string;
  notes : option string;
  items : list Item.t
}.
End ICreateInvoiceRequest.

(** The patch of [updateInvoice].  [amount_excluding_tax] is not declared by
    the interface but is read by the status guard. *)
Module IUpdateInvoiceRequest.
Record t := mk {
  customer_id : option uuid;
  invoice_date : option Z;
  due_date : option Z;
  discount_amount : option JS.number;
  discount_percentage : option JS.number;
  shipping_cost : option JS.number;
  status : option string;
  payment_method : option string;
  currency : option string;
  notes : option string;
  items : option (list Item.t);
  amount_excluding_tax : option JS.number
}.
End IUpdateInvoiceRequest.

(** ** The database *)

Record Store := mkStore {
  companySettings : gmap N ICompanySettings.t;
  invoice : gmap N InvoiceRow.t;
  invoiceItem : list IInvoiceItem.t;
  quote : gmap N QuoteRow.t;
  quoteItem : list IQuoteItem.t;
  next_id : uuid
}.

(** A statement issued through the handle [tx] of an interactive
    transaction; it takes effect when the transaction commits. *)
Inductive Write :=
| InvoiceCreate (row : InvoiceRow.t)
| InvoiceUpdate (invoice_id : uuid) (row : InvoiceRow.t)
| InvoiceItemDeleteMany (invoice_id : uuid)
| InvoiceItemCreateMany (rows : list IInvoiceItem.t)
| QuoteUpdate (quote_id : uuid) (row : QuoteRow.t).

Definition apply_write (st : Store) (w : Write) : Store :=
  match w with
  | InvoiceCreate row =>
      mkStore (companySettings st)
        (<[InvoiceRow.invoice_id row := row]> (invoice st))
        (invoiceItem st) (quote st) (quoteItem st) (next_id st)
  | InvoiceUpdate i row =>
      mkStore (companySettings st)
        (<[i := row]> (invoice st))
        (invoiceItem st) (quote st) (quoteItem st) (next_id st)
  | InvoiceItemDeleteMany i =>
      mkStore (companySettings st) (invoice st)
        (List.filter (fun r => negb (N.eqb (IInvoiceItem.invoice_id r) i))
           (invoiceItem st))
        (quote st) (quoteItem st) (next_id st)
  | InvoiceItemCreateMany rows =>
      mkStore (companySettings st) (invoice st)
        (invoiceItem st ++ rows) (quote st) (quoteItem st) (next_id st)
  | QuoteUpdate i row =>
      mkStore (companySettings st) (invoice st) (invoiceItem st)
        (<[i := row]> (quote st))
        (quoteItem st) (next_id st)
  end.

Definition commit (ws : list Write) (st : Store) : Store :=
  fold_left apply_write ws st.

(** The database together with the statements of the open transaction. *)
Record World := mkWorld {
  db : Store;
  pending : list Write
}.

Inductive Error :=
| NotFoundError (resource : string) (identifier : uuid)
| InvoiceStatusError (currentStatus attemptedAction : string)
| QuoteStatusError (currentStatus attemptedAction : string)
| InvoiceError (message : string)
| QuoteError (message : string)
| CompanyError (message : string)
| InfrastructureError.

(** Which input/output steps of an operation fail when they are reached. *)
Record Faults := mkFaults {
  settings_read_fails : bool;
  settings_write_fails : bool;
  lookup_fails : bool;
  write_fails : bool;
  readback_fails : bool
}.

Definition no_faults : Faults := mkFaults false false false false false.

(** ** Asynchronous code with exceptions: a state and error monad *)

Definition M (A : Type) : Type := World -> (Error + A) * World.

Definition ret {A} (a : A) : M A := fun w => (inr a, w).

Definition throw {A} (e : Error) : M A := fun w => (inl e, w).

Definition bind {A B} (m : M A) (k : A -> M B) : M B :=
  fun w =>
    match m w with
    | (inr a, w') => k a w'
    | (inl e, w') => (inl e, w')
    end.

Definition try_catch {A} (m : M A) (handler : Error -> M A) : M A :=
  fun w =>
    match m w with
    | (inr a, w') => (inr a, w')
    | (inl e, w') => handler e w'
    end.

Declare Scope M_scope.
Delimit Scope M_scope with M.
Notation "x <- m ;; k" := (bind m (fun x => k))
  (at level 100, m at next level, right associativity) : M_scope.
Notation "m ;;; k" := (bind m (fun _ => k))
  (at level 100, right associativity) : M_scope.
Local Open Scope M_scope.

(** An input/output step that fails when its flag is set. *)
Definition io (fails : bool) : M unit :=
  if fails then throw InfrastructureError else ret tt.

Definition get_db : M Store := fun w => (inr (db w), w).

Definition put_db (st : Store) : M unit :=
  fun w => (inr tt, mkWorld st (pending w)).

Definition enqueue (wr : Write) : M unit :=
  fun w => (inr tt, mkWorld (db w) (pending w ++ [wr])).

(** The rows as the open transaction sees them. *)
Definition get_tx_view : M Store :=
  fun w => (inr (commit (pending w) (db w)), w).

(** The database hands out a new identifier. *)
Definition fresh_id : M uuid :=
  st <- get_db ;;
  put_db (mkStore (companySettings st) (invoice st) (invoiceItem st)
            (quote st) (quoteItem st) (N.succ (next_id st))) ;;;
  ret (next_id st).

(** [prisma.$transaction(async (tx) => body)]: the statements issued through
    [tx] are applied together when [body] returns and dropped when it
    throws.  Statements issued inside [body] through the global client are
    not part of the transaction. *)
Definition transaction {A} (body : M A) : M A :=
  fun w =>
    match body (mkWorld (db w) []) with
    | (inr a, w') => (inr a, mkWorld (commit (pending w') (db w')) (pending w))
    | (inl e, w') => (inl e, mkWorld (db w') (pending w))
    end.

(** Runs a service call on a database with no transaction open. *)
Definition run {A} (m : M A) (st : Store) : (Error + A) * Store :=
  let '(r, w) := m (mkWorld st []) in (r, db w).

(** [orderBy: { sort_order: "asc" }]. *)
Fixpoint insert_by {A} (key : A -> Z) (x : A) (l : list A) : list A :=
  match l with
  | [] => [x]
  | y :: l' => if key x <=? key y then x :: l else y :: insert_by key x l'
  end.

Definition orderBy {A} (key : A -> Z) (l : list A) : list A :=
  fold_right (insert_by key) [] l.

(** ** The database client *)

Module Prisma.

Definition set_companySettings (m : gmap N ICompanySettings.t) (st : Store) : Store :=
  mkStore m (invoice st) (invoiceItem st) (quote st) (quoteItem st) (next_id st).

Definition set_quote (m : gmap N QuoteRow.t) (st : Store) : Store :=
  mkStore (companySettings st) (invoice st) (invoiceItem st) m (quoteItem st)
    (next_id st).

(** Statements of the global client: they take effect at once. *)

Definition companySettings_findUnique (fails : bool) (companyId : uuid)
  : M (option ICompanySettings.t) :=
  io fails ;;;
  st <- get_db ;;
  ret (companySettings st !! companyId).

Definition companySettings_create (fails : bool) (row : ICompanySettings.t)
  : M ICompanySettings.t :=
  io fails ;;;
  st <- get_db ;;
  put_db (set_companySettings
            (<[ICompanySettings.company_id row := row]> (companySettings st)) st) ;;;
  ret row.

Definition companySettings_update (fails : bool) (companyId : uuid)
    (f : ICompanySettings.t -> ICompanySettings.t) : M ICompanySettings.t :=
  io fails ;;;
  st <- get_db ;;
  match companySettings st !! companyId with
  | None => throw InfrastructureError
  | Some old =>
      put_db (set_companySettings (<[companyId := f old]> (companySettings st)) st) ;;;
      ret (f old)
  end.

Definition invoice_findUnique (fails : bool) (invoiceId : uuid)
  : M (option IInvoice.t) :=
  io fails ;;;
  st <- get_db ;;
  ret (match invoice st !! invoiceId with
       | None => None
       | Some row =>
           Some (IInvoice.mk row
                   (orderBy IInvoiceItem.sort_order
                      (List.filter
                         (fun r => N.eqb (IInvoiceItem.invoice_id r) invoiceId)
                         (invoiceItem st))))
       end).

Definition quote_findUnique (fails : bool) (quoteId : uuid)
  : M (option IQuote.t) :=
  io fails ;;;
  st <- get_db ;;
  ret (match quote st !! quoteId with
       | None => None
       | Some row =>
           Some (IQuote.mk row
                   (orderBy IQuoteItem.sort_order
                      (List.filter
                         (fun r => N.eqb (IQuoteItem.quote_id r) quoteId)
                         (quoteItem st))))
       end).

Definition quote_update (fails : bool) (quoteId : uuid)
    (f : QuoteRow.t -> QuoteRow.t) : M QuoteRow.t :=
  io fails ;;;
  st <- get_db ;;
  match quote st !! quoteId with
  | None => throw InfrastructureError
  | Some old =>
      put_db (set_quote (<[quoteId := f old]> (quote st)) st) ;;;
      ret (f old)
  end.

(** Statements of a transaction handle [tx]. *)

Definition tx_invoice_create (fails : bool) (data : uuid -> InvoiceRow.t)
  : M InvoiceRow.t :=
  io fails ;;;
  i <- fresh_id ;;
  enqueue (InvoiceCreate (data i)) ;;;
  ret (data i).

Definition tx_invoice_update (fails : bool) (invoiceId : uuid)
    (f : InvoiceRow.t -> InvoiceRow.t) : M InvoiceRow.t :=
  io fails ;;;
  st <- get_tx_view ;;
  match invoice st !! invoiceId with
  | None => throw InfrastructureError
  | Some old => enqueue (InvoiceUpdate invoiceId (f old)) ;;; ret (f old)
  end.

Definition tx_invoiceItem_deleteMany (fails : bool) (invoiceId : uuid) : M unit :=
  io fails ;;;
  enqueue (InvoiceItemDeleteMany invoiceId).

Fixpoint allocate {A} (rows : list (uuid -> A)) : M (list A) :=
  match rows with
  | [] => ret []
  | r :: rest =>
      i <- fresh_id ;;
      rs <- allocate rest ;;
      ret (r i :: rs)
  end.

Definition tx_invoiceItem_createMany (fails : bool)
    (data : list (uuid -> IInvoiceItem.t)) : M unit :=
  io fails ;;;
  rows <- allocate data ;;
  enqueue (InvoiceItemCreateMany rows).

Definition tx_quote_update (fails : bool) (quoteId : uuid)
    (f : QuoteRow.t -> QuoteRow.t) : M QuoteRow.t :=
  io fails ;;;
  st <- get_tx_view ;;
  match quote st !! quoteId with
  | None => throw InfrastructureError
  | Some old => enqueue (QuoteUpdate quoteId (f old)) ;;; ret (f old)
  end.

End Prisma.

(** ** company.service.ts *)

Module CompanyService.

(** Cache invalidation: its failures are logged and swallowed. *)
Definition invalidateCache (companyId : uuid) : M unit := ret tt.

Definition createDefaultSettings (F : Faults) (companyId : uuid)
  : M ICompanySettings.t :=
  try_catch
    (Prisma.companySettings_create (settings_write_fails F)
       (ICompanySettings.mk companyId "INV" "QUO" 1 1 30))
    (fun _ => throw (CompanyError "Erreur lors de la création des paramètres par défaut")).

Definition getCompanySettings (F : Faults) (companyId : uuid)
  : M ICompanySettings.t :=
  try_catch
    (settings <- Prisma.companySettings_findUnique (settings_read_fails F) companyId ;;
     match settings with
     | None => createDefaultSettings F companyId
     | Some settings => ret settings
     end)
    (fun _ => throw (CompanyError "Erreur lors de la récupération des paramètres")).

(** [data: { next_invoice_number: v }]. *)
Definition set_next_invoice_number (v : Z) (s : ICompanySettings.t)
  : ICompanySettings.t :=
  ICompanySettings.mk
    (ICompanySettings.company_id s)
    (ICompanySettings.invoice_prefix s)
    (ICompanySettings.quote_prefix s)
    v
    (ICompanySettings.next_quote_number s)
    (ICompanySettings.default_payment_terms s).

(** [data: { next_quote_number: v }]. *)
Definition set_next_quote_number (v : Z) (s : ICompanySettings.t)
  : ICompanySettings.t :=
  ICompanySettings.mk
    (ICompanySettings.company_id s)
    (ICompanySettings.invoice_prefix s)
    (ICompanySettings.quote_prefix s)
    (ICompanySettings.next_invoice_number s)
    v
    (ICompanySettings.default_payment_terms s).

Definition getNextInvoiceNumber (F : Faults) (companyId : uuid) : M string :=
  try_catch
    (settings <- getCompanySettings F companyId ;;
     let nextNumber := ICompanySettings.next_invoice_number settings in
     Prisma.companySettings_update (settings_write_fails F) companyId
       (set_next_invoice_number (nextNumber + 1)) ;;;
     invalidateCache companyId ;;;
     ret (String.append (ICompanySettings.invoice_prefix settings)
            (String.append "-" (JS.padStart 4 "0" (JS.toString nextNumber)))))
    (fun _ => throw (CompanyError "Erreur lors de la génération du numéro de facture")).

Definition getNextQuoteNumber (F : Faults) (companyId : uuid) : M string :=
  try_catch
    (settings <- getCompanySettings F companyId ;;
     let nextNumber := ICompanySettings.next_quote_number settings in
     Prisma.companySettings_update (settings_write_fails F) companyId
       (set_next_quote_number (nextNumber + 1)) ;;;
     invalidateCache companyId ;;;
     ret (String.append (ICompanySettings.quote_prefix settings)
            (String.append "-" (JS.padStart 4 "0" (JS.toString nextNumber)))))
    (fun _ => throw (CompanyError "Erreur lors de la génération du numéro de devis")).

End CompanyService.

(** ** invoice.service.ts *)

Module InvoiceService.

Definition invalidateCache (invoiceId companyId : uuid) : M unit := ret tt.

Definition getVatRateValue (vatRate : string) : JS.value :=
  let rates : list (string * JS.number) :=
    [ ("ZERO", 0%float); ("REDUCED_1", 2.1%float); ("REDUCED_2", 5.5%float);
      ("REDUCED_3", 10.0%float); ("STANDARD", 20.0%float);
      ("EXPORT", 0%float) ]%string in
  JS.or_value (JS.get rates vatRate) (JS.Num 20.0%float).

Definition calculateInvoiceTotals (itemsData : list Item.t) : Calculated.t :=
  let items :=
    map (fun item =>
      let lineTotal :=
        (Item.quantity item * Item.unit_price_excluding_tax item)%float in
      let discountAmount :=
        if JS.truthy_opt (Item.discount_percentage item)
        then (lineTotal * JS.num (Item.discount_percentage item) / 100)%float
        else JS.or_num (Item.discount_amount item) 0%float in
      let totalExcludingTax := (lineTotal - discountAmount)%float in
      let vatRate := getVatRateValue (Item.vat_rate item) in
      let vatAmount := (totalExcludingTax * JS.ToNumber vatRate / 100)%float in
      let totalIncludingTax := (totalExcludingTax + vatAmount)%float in
      CalculatedItem.mk item totalExcludingTax totalIncludingTax) itemsData in
  let totalExcludingTax :=
    fold_left (fun sum item =>
      (sum + CalculatedItem.total_excluding_tax item)%float) items 0%float in
  let totalTax :=
    fold_left (fun sum item =>
      (sum + (CalculatedItem.total_including_tax item
              - CalculatedItem.total_excluding_tax item))%float) items 0%float in
  let totalIncludingTax :=
    fold_left (fun sum item =>
      (sum + CalculatedItem.total_including_tax item)%float) items 0%float in
  Calculated.mk items
    (Totals.mk totalExcludingTax totalTax totalIncludingTax).

(** The element of [items.map((item, index) => ...)] handed to
    [createMany]; the database supplies [item_id]. *)
Definition item_row (invoiceId : uuid) (index : nat) (item : CalculatedItem.t)
  : uuid -> IInvoiceItem.t :=
  fun item_id =>
    let raw := CalculatedItem.item item in
    IInvoiceItem.mk item_id invoiceId
      (Item.product_id raw)
      (Some (Item.name raw))
      (Item.description raw)
      (Item.quantity raw)
      (Item.unit raw)
      (Item.unit_price_excluding_tax raw)
      (Item.discount_percentage raw)
      (Item.discount_amount raw)
      (Item.vat_rate raw)
      (CalculatedItem.total_excluding_tax item)
      (CalculatedItem.total_including_tax item)
      (JS.or_int (Item.sort_order raw) (Z.of_nat index)).

Definition getInvoiceById (fails : bool) (invoiceId : uuid) : M IInvoice.t :=
  try_catch
    (invoice <- Prisma.invoice_findUnique fails invoiceId ;;
     match invoice with
     | None => throw (NotFoundError "Facture" invoiceId)
     | Some invoice => ret invoice
     end)
    (fun error =>
       match error with
       | NotFoundError _ _ => throw error
       | _ => throw (InvoiceError "Erreur lors de la récupération de la facture")
       end).

(** The [data] literal of [tx.invoice.create]; the database supplies
    [invoice_id] and the column defaults [status = "draft"] and
    [payment_status = "unpaid"]. *)
Definition create_data (data : ICreateInvoiceRequest.t) (userId companyId : uuid)
    (invoiceNumber : string) (totals : Totals.t) : uuid -> InvoiceRow.t :=
  fun invoice_id =>
    InvoiceRow.mk invoice_id
      (ICreateInvoiceRequest.customer_id data)
      userId
      companyId
      invoiceNumber
      (ICreateInvoiceRequest.invoice_date data)
      (ICreateInvoiceRequest.due_date data)
      (Totals.totalExcludingTax totals)
      (Totals.totalTax totals)
      (Totals.totalIncludingTax totals)
      (JS.or_num (ICreateInvoiceRequest.discount_amount data) 0%float)
      (ICreateInvoiceRequest.discount_percentage data)
      (JS.or_num (ICreateInvoiceRequest.shipping_cost data) 0%float)
      "draft"
      "unpaid"
      None
      (JS.or_string (ICreateInvoiceRequest.currency data) "EUR")
      (ICreateInvoiceRequest.notes data).

Definition createInvoice (F : Faults) (data : ICreateInvoiceRequest.t)
    (userId companyId : uuid) : M IInvoice.t :=
  try_catch
    (invoiceNumber <- CompanyService.getNextInvoiceNumber F companyId ;;
     let calculated := calculateInvoiceTotals (ICreateInvoiceRequest.items data) in
     let totals := Calculated.totals calculated in
     let items := Calculated.items calculated in
     invoice <- transaction
       (newInvoice <- Prisma.tx_invoice_create (write_fails F)
          (create_data data userId companyId invoiceNumber totals) ;;
        Prisma.tx_invoiceItem_createMany (write_fails F)
          (imap (item_row (InvoiceRow.invoice_id newInvoice)) items) ;;;
        ret newInvoice) ;;
     invalidateCache (InvoiceRow.invoice_id invoice) companyId ;;;
     getInvoiceById (readback_fails F) (InvoiceRow.invoice_id invoice))
    (fun _ => throw (InvoiceError "Erreur lors de la création de la facture")).

(** The [data] literal of [tx.invoice.update]. *)
Definition update_data (data : IUpdateInvoiceRequest.t) (totals : option Totals.t)
  : InvoiceRow.t -> InvoiceRow.t :=
  fun old =>
    InvoiceRow.mk
      (InvoiceRow.invoice_id old)
      (JS.assign (IUpdateInvoiceRequest.customer_id data)
         (InvoiceRow.customer_id old))
      (InvoiceRow.user_id old)
      (InvoiceRow.company_id old)
      (InvoiceRow.invoice_number old)
      (JS.assign (IUpdateInvoiceRequest.invoice_date data)
         (InvoiceRow.invoice_date old))
      (JS.assign (IUpdateInvoiceRequest.due_date data)
         (InvoiceRow.due_date old))
      (JS.assign (option_map Totals.totalExcludingTax totals)
         (InvoiceRow.amount_excluding_tax old))
      (JS.assign (option_map Totals.totalTax totals)
         (InvoiceRow.tax old))
      (JS.assign (option_map Totals.totalIncludingTax totals)
         (InvoiceRow.amount_including_tax old))
      (JS.assign (IUpdateInvoiceRequest.discount_amount data)
         (InvoiceRow.discount_amount old))
      (JS.assign_opt (IUpdateInvoiceRequest.discount_percentage data)
         (InvoiceRow.discount_percentage old))
      (JS.assign (IUpdateInvoiceRequest.shipping_cost data)
         (InvoiceRow.shipping_cost old))
      (JS.assign (IUpdateInvoiceRequest.status data)
         (InvoiceRow.status old))
      (InvoiceRow.payment_status old)
      (JS.assign_opt (IUpdateInvoiceRequest.payment_method data)
         (InvoiceRow.payment_method old))
      (JS.assign (IUpdateInvoiceRequest.currency data)
         (InvoiceRow.currency old))
      (JS.assign_opt (IUpdateInvoiceRequest.notes data)
         (InvoiceRow.notes old)).

Definition updateInvoice (F : Faults) (invoiceId : uuid)
    (data : IUpdateInvoiceRequest.t) : M IInvoice.t :=
  try_catch
    (existingInvoice <- getInvoiceById (lookup_fails F) invoiceId ;;
     (if String.eqb (IInvoice.status existingInvoice) "paid"
         && (bool_decide (is_Some (IUpdateInvoiceRequest.items data))
             || JS.truthy_opt (IUpdateInvoiceRequest.amount_excluding_tax data))
      then throw (InvoiceStatusError (IInvoice.status existingInvoice)
                    "modifier les montants")
      else ret tt) ;;;
     (if String.eqb (IInvoice.status existingInvoice) "cancelled"
      then throw (InvoiceStatusError (IInvoice.status existingInvoice) "modifier")
      else ret tt) ;;;
     let calculated :=
       option_map calculateInvoiceTotals (IUpdateInvoiceRequest.items data) in
     let totals := option_map Calculated.totals calculated in
     let items := option_map Calculated.items calculated in
     invoice <- transaction
       (updatedInvoice <- Prisma.tx_invoice_update (write_fails F) invoiceId
          (update_data data totals) ;;
        match IUpdateInvoiceRequest.items data, items with
        | Some _, Some items =>
            Prisma.tx_invoiceItem_deleteMany (write_fails F) invoiceId ;;;
            Prisma.tx_invoiceItem_createMany (write_fails F)
              (imap (item_row invoiceId) items)
        | _, _ => ret tt
        end ;;;
        ret updatedInvoice) ;;
     invalidateCache invoiceId (IInvoice.company_id existingInvoice) ;;;
     getInvoiceById (readback_fails F) invoiceId)
    (fun error =>
       match error with
       | NotFoundError _ _ | InvoiceStatusError _ _ => throw error
       | _ => throw (InvoiceError "Erreur lors de la mise à jour de la facture")
       end).

End InvoiceService.

(** ** quote.service.ts *)

Module QuoteService.

Definition invalidateCache (quoteId companyId : uuid) : M unit := ret tt.

Definition getVatRateValue (vatRate : string) : JS.value :=
  let rates : list (string * JS.number) :=
    [ ("ZERO", 0%float); ("REDUCED_1", 2.1%float); ("REDUCED_2", 5.5%float);
      ("REDUCED_3", 10.0%float); ("STANDARD", 20.0%float);
      ("EXPORT", 0%float) ]%string in
  JS.or_value (JS.get rates vatRate) (JS.Num 20.0%float).

Definition calculateQuoteTotals (itemsData : list Item.t) : Calculated.t :=
  let items :=
    map (fun item =>
      let lineTotal :=
        (Item.quantity item * Item.unit_price_excluding_tax item)%float in
      let discountAmount :=
        if JS.truthy_opt (Item.discount_percentage item)
        then (lineTotal * JS.num (Item.discount_percentage item) / 100)%float
        else JS.or_num (Item.discount_amount item) 0%float in
      let totalExcludingTax := (lineTotal - discountAmount)%float in
      let vatRate := getVatRateValue (Item.vat_rate item) in
      let vatAmount := (totalExcludingTax * JS.ToNumber vatRate / 100)%float in
      let totalIncludingTax := (totalExcludingTax + vatAmount)%float in
      CalculatedItem.mk item totalExcludingTax totalIncludingTax) itemsData in
  let totalExcludingTax :=
    fold_left (fun sum item =>
      (sum + CalculatedItem.total_excluding_tax item)%float) items 0%float in
  let totalTax :=
    fold_left (fun sum item =>
      (sum + (CalculatedItem.total_including_tax item
              - CalculatedItem.total_excluding_tax item))%float) items 0%float in
  let totalIncludingTax :=
    fold_left (fun sum item =>
      (sum + CalculatedItem.total_including_tax item)%float) items 0%float in
  Calculated.mk items
    (Totals.mk totalExcludingTax totalTax totalIncludingTax).

Definition getQuoteById (fails : bool) (quoteId : uuid) : M IQuote.t :=
  try_catch
    (quote <- Prisma.quote_findUnique fails quoteId ;;
     match quote with
     | None => throw (NotFoundError "Devis" quoteId)
     | Some quote => ret quote
     end)
    (fun error =>
       match error with
       | NotFoundError _ _ => throw error
       | _ => throw (QuoteError "Erreur lors de la récupération du devis")
       end).


(** [data: { status: "converted", converted_to_invoice: true, invoice_id }]. *)
Definition converted_data (invoice_id : uuid) (old : QuoteRow.t) : QuoteRow.t :=
  QuoteRow.mk
    (QuoteRow.quote_id old) (QuoteRow.customer_id old)
    (QuoteRow.user_id old) (QuoteRow.company_id old)
    (QuoteRow.quote_number old) (QuoteRow.quote_date old)
    (QuoteRow.validity_date old)
    (QuoteRow.amount_excluding_tax old) (QuoteRow.tax old)
    (QuoteRow.amount_including_tax old)
    (QuoteRow.discount_amount old) (QuoteRow.discount_percentage old)
    (QuoteRow.shipping_cost old)
    "converted"
    (QuoteRow.currency old) (QuoteRow.notes old)
    (QuoteRow.accepted_at old)
    true
    (Some invoice_id).


(** The [invoiceData] literal of [convertToInvoice]; [now_date] is the
    clock read by [new Date()], [now_ms] the one read by [Date.now()]. *)
Definition invoiceData (quote : IQuote.t) (conversionData : IQuoteConversion.t)
    (now_date now_ms : Z) : ICreateInvoiceRequest.t :=
  ICreateInvoiceRequest.mk
    (QuoteRow.customer_id (IQuote.row quote))
    (JS.or_obj (IQuoteConversion.invoice_date conversionData) now_date)
    (JS.or_obj (IQuoteConversion.due_date conversionData)
       (now_ms
        + JS.or_int (IQuoteConversion.payment_terms conversionData) 30
          * 24 * 60 * 60 * 1000))
    (option_map JS.toNumber (QuoteRow.discount_amount (IQuote.row quote)))
    (option_map JS.toNumber (QuoteRow.discount_percentage (IQuote.row quote)))
    (option_map JS.toNumber (QuoteRow.shipping_cost (IQuote.row quote)))
    (Some (QuoteRow.currency (IQuote.row quote)))
    (JS.or_string_opt (IQuoteConversion.notes conversionData)
       (QuoteRow.notes (IQuote.row quote)))
    (map (fun item =>
            Item.mk
              (IQuoteItem.product_id item)
              (JS.or_string (IQuoteItem.name item) EmptyString)
              (IQuoteItem.description item)
              (JS.toNumber (IQuoteItem.quantity item))
              (IQuoteItem.unit item)
              (if IQuoteConversion.apply_current_prices conversionData
               then JS.toNumber (IQuoteItem.unit_price_excluding_tax item)
               else JS.toNumber (IQuoteItem.unit_price_excluding_tax item))
              (option_map JS.toNumber (IQuoteItem.discount_percentage item))
              (option_map JS.toNumber (IQuoteItem.discount_amount item))
              (IQuoteItem.vat_rate item)
              (Some (IQuoteItem.sort_order item)))
       (IQuote.items quote)).

(** [F] describes the steps of the conversion itself, [FI] those of the
    nested [createInvoice]. *)
Definition convertToInvoice (F FI : Faults) (now_date now_ms : Z)
    (quoteId : uuid) (conversionData : IQuoteConversion.t)
  : M (QuoteRow.t * IInvoice.t) :=
  try_catch
    (quote <- getQuoteById (lookup_fails F) quoteId ;;
     (if negb (String.eqb (IQuote.status quote) "accepted")
      then throw (QuoteStatusError (IQuote.status quote) "convertir en facture")
      else ret tt) ;;;
     (if IQuote.converted_to_invoice quote
      then throw (QuoteStatusError "already converted" "convertir à nouveau")
      else ret tt) ;;;
     result <- transaction
       (invoice <- InvoiceService.createInvoice FI
                     (invoiceData quote conversionData now_date now_ms)
                     (QuoteRow.user_id (IQuote.row quote))
                     (IQuote.company_id quote) ;;
        updatedQuote <- Prisma.tx_quote_update (write_fails F) quoteId
          (converted_data (IInvoice.invoice_id invoice)) ;;
        ret (updatedQuote, invoice)) ;;
     invalidateCache quoteId (IQuote.company_id quote) ;;;
     ret result)
    (fun error =>
       match error with
       | NotFoundError _ _ | QuoteStatusError _ _ => throw error
       | _ => throw (QuoteError "Erreur lors de la conversion en facture")
       end).

End QuoteService.

(** ** Vocabulary of the statements *)

(** [k] sequential calls of an operation, results in call order. *)
Fixpoint consecutive {A} (k : nat) (m : M A) : M (list A) :=
  match k with
  | O => ret []
  | S k' =>
      a <- m ;;
      rest <- consecutive k' m ;;
      ret (a :: rest)
  end.

(** [const lineTotal = item.quantity * item.unit_price_excluding_tax]. *)
Definition lineTotal (item : Item.t) : JS.number :=
  (Item.quantity item * Item.unit_price_excluding_tax item)%float.

(** The six codes of the [rates] literal. *)
Definition vat_codes : list string :=
  ["ZERO"; "REDUCED_1"; "REDUCED_2"; "REDUCED_3"; "STANDARD"; "EXPORT"]%string.

(** The settings a company has when the generator runs: the stored row, or
    the defaults that [createDefaultSettings] inserts. *)
Definition settings_of (st : Store) (companyId : uuid) : ICompanySettings.t :=
  match companySettings st !! companyId with
  | Some s => s
  | None => ICompanySettings.mk companyId "INV" "QUO" 1 1 30
  end.

Fixpoint zeros (k : nat) : string :=
  match k with
  | O => EmptyString
  | S k' => String "0"%char (zeros k')
  end.

(** The decimal digits of a counter. *)
Definition digits (n : Z) : string := JS.toString n.

(** ["{prefix}-{counter:04d}"]: the digits of [n], preceded by as many zeros
    as are missing to reach four characters. *)
Definition formatted (pfx : string) (n : Z) : string :=
  String.append pfx
    (String.append "-"
       (String.append (zeros (4 - String.length (digits n))) (digits n))).

(** The number that a string of digits denotes. *)
Definition read_digits (s : string) : option Z :=
  option_map Z.of_uint (NilEmpty.uint_of_string s).

(** The row [createInvoice] inserts in store [st]. *)
Definition new_invoice_row (data : ICreateInvoiceRequest.t) (userId companyId : uuid)
    (st : Store) : InvoiceRow.t :=
  let s := settings_of st companyId in
  InvoiceService.create_data data userId companyId
    (formatted (ICompanySettings.invoice_prefix s)
       (ICompanySettings.next_invoice_number s))
    (Calculated.totals
       (InvoiceService.calculateInvoiceTotals (ICreateInvoiceRequest.items data)))
    (next_id st).

(** The item rows [createMany] inserts for [items] under invoice
    [invoiceId], with identifiers [first], [first + 1], ... *)
Definition new_item_rows (items : list Item.t) (invoiceId first : uuid)
  : list IInvoiceItem.t :=
  imap (fun i r => r (first + N.of_nat i)%N)
    (imap (InvoiceService.item_row invoiceId)
       (Calculated.items (InvoiceService.calculateInvoiceTotals items))).

(** [include: { items: { orderBy: { sort_order: "asc" } } }]. *)
Definition included_items (invoiceId : uuid) (rows : list IInvoiceItem.t)
  : list IInvoiceItem.t :=
  orderBy IInvoiceItem.sort_order
    (List.filter (fun r => N.eqb (IInvoiceItem.invoice_id r) invoiceId) rows).

Definition included_quote_items (quoteId : uuid) (rows : list IQuoteItem.t)
  : list IQuoteItem.t :=
  orderBy IQuoteItem.sort_order
    (List.filter (fun r => N.eqb (IQuoteItem.quote_id r) quoteId) rows).

(** What [getQuoteById] returns for a stored row [q]. *)
Definition read_quote (st : Store) (quoteId : uuid) (q : QuoteRow.t) : IQuote.t :=
  IQuote.mk q (included_quote_items quoteId (quoteItem st)).

(** The store after [k] identifiers have been handed out. *)
Definition bump (k : N) (st : Store) : Store :=
  mkStore (companySettings st) (invoice st) (invoiceItem st) (quote st)
    (quoteItem st) (next_id st + k)%N.


(** *** Statements of the specification that the code does not meet *)

(** "For every line item in which discount_percentage is set, the
    calculator applies the percentage discount and ignores
    discount_amount." *)
Definition percentage_takes_precedence (calc : list Item.t -> Calculated.t) : Prop :=
  forall item p,
    Item.discount_percentage item = Some p ->
    map CalculatedItem.total_excluding_tax (Calculated.items (calc [item]))
    = [(lineTotal item - lineTotal item * p / 100)%float].

(** "When payment_terms is also absent it falls back to the owning
    company's default payment terms from CompanySettings." *)
Definition due_date_uses_company_terms : Prop :=
  forall st quoteId q settings c now_date now_ms q' inv st',
    quote st !! quoteId = Some q ->
    companySettings st !! QuoteRow.company_id q = Some settings ->
    IQuoteConversion.due_date c = None ->
    IQuoteConversion.payment_terms c = None ->
    run (QuoteService.convertToInvoice no_faults no_faults now_date now_ms quoteId c) st
    = (inr (q', inv), st') ->
    InvoiceRow.due_date (IInvoice.row inv)
    = now_ms + ICompanySettings.default_payment_terms settings * 24 * 60 * 60 * 1000.



(** *** Sample data *)

Module Sample.

Definition settings : ICompanySettings.t :=
  ICompanySettings.mk 1 "INV" "QUO" 7 3 45.

Definition quote_item_1 : IQuoteItem.t :=
  IQuoteItem.mk 11 10 None (Some "Audit"%string) None 3%float "h" 100%float
    None None "STANDARD" 300%float 360%float 0.

Definition quote_item_2 : IQuoteItem.t :=
  IQuoteItem.mk 12 10 None None None 1%float "u" 50%float
    None None "REDUCED_2" 50%float 52.75%float 1.

(** Accepted, not converted, valid until instant 2000. *)
Definition accepted_quote : QuoteRow.t :=
  QuoteRow.mk 10 5 2 1 "QUO-0001" 1000 2000 350%float 62.75%float 412.75%float
    None None None "accepted" "EUR" None (Some 1500) false None.

Definition pending_quote : QuoteRow.t :=
  QuoteRow.mk 13 5 2 1 "QUO-0002" 1000 9000 0%float 0%float 0%float
    None None None "pending" "EUR" None None false None.

Definition converted_quote : QuoteRow.t :=
  QuoteRow.mk 14 5 2 1 "QUO-0000" 1000 9000 0%float 0%float 0%float
    None None None "converted" "EUR" None (Some 1200) true (Some 30%N).

Definition invoice_item_1 : IInvoiceItem.t :=
  IInvoiceItem.mk 21 20 None (Some "Audit"%string) None 2%float "h" 100%float
    None None "STANDARD" 200%float 240%float 0.

Definition invoice_item_2 : IInvoiceItem.t :=
  IInvoiceItem.mk 22 20 None (Some "Travel"%string) None 1%float "u" 40%float
    None None "STANDARD" 40%float 48%float 1.

Definition draft_invoice : InvoiceRow.t :=
  InvoiceRow.mk 20 5 2 1 "INV-0005" 1000 3000 240%float 48%float 288%float
    0%float None 0%float "draft" "unpaid" None "EUR" None.

Definition paid_invoice : InvoiceRow.t :=
  InvoiceRow.mk 30 5 2 1 "INV-0004" 1000 3000 100%float 20%float 120%float
    0%float None 0%float "paid" "paid" None "EUR" None.

Definition cancelled_invoice : InvoiceRow.t :=
  InvoiceRow.mk 40 5 2 1 "INV-0006" 1000 3000 100%float 20%float 120%float
    0%float None 0%float "cancelled" "unpaid" None "EUR" None.

Definition store : Store :=
  mkStore
    {[ 1%N := settings ]}
    (<[20%N := draft_invoice]>
       (<[30%N := paid_invoice]> {[ 40%N := cancelled_invoice ]}))
    [invoice_item_1; invoice_item_2]
    (<[10%N := accepted_quote]>
       (<[13%N := pending_quote]> {[ 14%N := converted_quote ]}))
    [quote_item_2; quote_item_1]
    100.

(** No due date, no payment terms, no notes. *)
Definition conversion : IQuoteConversion.t :=
  IQuoteConversion.mk None None None None true false.

(** The re-read that follows the commit of the invoice fails. *)
Definition readback_fault : Faults := mkFaults false false false false true.

Definition item (quantity price : JS.number) (pct amt : option JS.number)
    (vat : string) : Item.t :=
  Item.mk None "Licence" None quantity "u" price pct amt vat None.

(** A zero percentage next to an explicit amount. *)
Definition zero_percent_item : Item.t :=
  item 1%float 100%float (Some 0%float) (Some 10%float) "STANDARD".




Definition items_patch : IUpdateInvoiceRequest.t :=
  IUpdateInvoiceRequest.mk None None None None None None None None None None
    (Some [item 3%float 100%float None None "STANDARD";
           item 1%float 50%float None None "REDUCED_2"]) None.

End Sample.

(** *** Requests used in the statements *)

Module Request.

(** [{ status }]. *)
Definition status_patch (status : string) : IUpdateInvoiceRequest.t :=
  IUpdateInvoiceRequest.mk None None None None None None (Some status) None None
    None None None.

(** [{ items }]. *)
Definition items_patch (items : list Item.t) : IUpdateInvoiceRequest.t :=
  IUpdateInvoiceRequest.mk None None None None None None None None None None
    (Some items) None.


(** A request for two items that carry no sort order. *)
Definition two_items : ICreateInvoiceRequest.t :=
  ICreateInvoiceRequest.mk 5 1000 3000 None None None None None
    [Sample.item 3%float 100%float None None "STANDARD";
     Sample.item 1%float 50%float None None "REDUCED_2"].

End Request.

(** ** quote.service.ts: deletion *)

Module QuoteDeletion.



End QuoteDeletion.

(** ** quote.service.ts: rates of the statistics *)

Module QuoteStatistics.

(** A count returned by the database, as a JavaScript number (exact below
    2^53). *)
Definition of_count (n : nat) : JS.number :=
  PrimFloat.of_uint63 (Uint63.of_Z (Z.of_nat n)).

(** [prisma.quote.count({ where })]. *)
Definition quote_count (fails : bool) (where_ : QuoteRow.t -> bool) : M nat :=
  io fails ;;;
  st <- get_db ;;
  ret (length (List.filter where_ (map snd (map_to_list (quote st))))).

Definition getAcceptanceRate (fails : bool) (companyId : uuid) : M JS.number :=
  total <- quote_count fails
             (fun q => N.eqb (QuoteRow.company_id q) companyId
                       && negb (String.eqb (QuoteRow.status q) "draft")) ;;
  accepted <- quote_count fails
                (fun q => N.eqb (QuoteRow.company_id q) companyId
                          && String.eqb (QuoteRow.status q) "accepted") ;;
  ret (if (0 <? total)%nat
       then (of_count accepted / of_count total * 100)%float
       else 0%float).

Definition getConversionRate (fails : bool) (companyId : uuid) : M JS.number :=
  accepted <- quote_count fails
                (fun q => N.eqb (QuoteRow.company_id q) companyId
                          && String.eqb (QuoteRow.status q) "accepted") ;;
  converted <- quote_count fails
                 (fun q => N.eqb (QuoteRow.company_id q) companyId
                           && QuoteRow.converted_to_invoice q) ;;
  ret (if (0 <? accepted)%nat
       then (of_count converted / of_count accepted * 100)%float
       else 0%float).

End QuoteStatistics.

(** ** company.service.ts: update of the settings *)

(** The fields of [IUpdateCompanySettingsRequest] that the settings row
    carries. *)
Module IUpdateCompanySettingsRequest.
Record t := mk {
  invoice_prefix : option string;
  quote_prefix : option string;
  next_invoice_number : option Z;
  next_quote_number : option Z;
  default_payment_terms : option Z
}.
End IUpdateCompanySettingsRequest.

Module SettingsUpdate.

(** [update: data] and [create: { company_id, ...data }]: a field that
    [data] does not carry keeps the value of [old]. *)
Definition patch (data : IUpdateCompanySettingsRequest.t) (companyId : uuid)
    (old : ICompanySettings.t) : ICompanySettings.t :=
  ICompanySettings.mk companyId
    (JS.assign (IUpdateCompanySettingsRequest.invoice_prefix data)
       (ICompanySettings.invoice_prefix old))
    (JS.assign (IUpdateCompanySettingsRequest.quote_prefix data)
       (ICompanySettings.quote_prefix old))
    (JS.assign (IUpdateCompanySettingsRequest.next_invoice_number data)
       (ICompanySettings.next_invoice_number old))
    (JS.assign (IUpdateCompanySettingsRequest.next_quote_number data)
       (ICompanySettings.next_quote_number old))
    (JS.assign (IUpdateCompanySettingsRequest.default_payment_terms data)
       (ICompanySettings.default_payment_terms old)).

(** [prisma.companySettings.upsert].  When the row is created, the fields
    absent from [data] take the column defaults of the schema, which is not
    part of the sources: [column_defaults] stands for them. *)
Definition companySettings_upsert (fails : bool)
    (column_defaults : ICompanySettings.t) (companyId : uuid)
    (data : IUpdateCompanySettingsRequest.t) : M ICompanySettings.t :=
  io fails ;;;
  st <- get_db ;;
  let row :=
    match companySettings st !! companyId with
    | Some old => patch data (ICompanySettings.company_id old) old
    | None => patch data companyId column_defaults
    end in
  put_db (Prisma.set_companySettings (<[companyId := row]> (companySettings st)) st) ;;;
  ret row.

Definition updateCompanySettings (F : Faults) (column_defaults : ICompanySettings.t)
    (companyId : uuid) (data : IUpdateCompanySettingsRequest.t)
  : M ICompanySettings.t :=
  try_catch
    (settings <- companySettings_upsert (settings_write_fails F) column_defaults
                   companyId data ;;
     CompanyService.invalidateCache companyId ;;;
     ret settings)
    (fun _ => throw (CompanyError "Erreur lors de la mise à jour des paramètres")).

End SettingsUpdate.

(** [{ next_invoice_number }]. *)
Definition counter_patch (n : Z) : IUpdateCompanySettingsRequest.t :=
  IUpdateCompanySettingsRequest.mk None None (Some n) None None.

(** ** Product service (second part of company.service.ts) *)

(** Row of [product]; descriptive and pricing columns are not carried. *)
Module IProduct.
Record t := mk {
  product_id : uuid;
  company_id : uuid;
  is_active : bool;
  track_inventory : bool;
  stock_quantity : option JS.number
}.
End IProduct.

(** The fields of [IStockAdjustment] that [adjustStock] reads. *)
Module IStockAdjustment.
Record t := mk {
  adjustment_type : string;
  quantity : JS.number
}.
End IStockAdjustment.

Module ProductService.

(** The product table next to the tables of the documents. *)
Record Catalog := mkCatalog {
  documents : Store;
  product : gmap N IProduct.t
}.

Inductive Error :=
| NotFoundError (resource : string) (identifier : uuid)
| StockError (message : string) (productId : uuid)
    (requestedQuantity availableQuantity : JS.number)
| ValidationError (message : string)
| ProductError (message : string)
| InfrastructureError.

Definition P (A : Type) : Type := Catalog -> (Error + A) * Catalog.

Definition ret {A} (a : A) : P A := fun c => (inr a, c).

Definition throw {A} (e : Error) : P A := fun c => (inl e, c).

Definition bind {A B} (m : P A) (k : A -> P B) : P B :=
  fun c =>
    match m c with
    | (inr a, c') => k a c'
    | (inl e, c') => (inl e, c')
    end.

Definition try_catch {A} (m : P A) (handler : Error -> P A) : P A :=
  fun c =>
    match m c with
    | (inr a, c') => (inr a, c')
    | (inl e, c') => handler e c'
    end.

Declare Scope P_scope.
Delimit Scope P_scope with P.
Notation "x <- m ;; k" := (bind m (fun x => k))
  (at level 100, m at next level, right associativity) : P_scope.
Notation "m ;;; k" := (bind m (fun _ => k))
  (at level 100, right associativity) : P_scope.
Local Open Scope P_scope.

Definition io (fails : bool) : P unit :=
  if fails then throw InfrastructureError else ret tt.

Definition get_catalog : P Catalog := fun c => (inr c, c).

Definition put_product (m : gmap N IProduct.t) : P unit :=
  fun c => (inr tt, mkCatalog (documents c) m).

(** Statements of the database client. *)

Definition product_findUnique (fails : bool) (productId : uuid)
  : P (option IProduct.t) :=
  io fails ;;;
  c <- get_catalog ;;
  ret (product c !! productId).

Definition product_update (fails : bool) (productId : uuid)
    (f : IProduct.t -> IProduct.t) : P IProduct.t :=
  io fails ;;;
  c <- get_catalog ;;
  match product c !! productId with
  | None => throw InfrastructureError
  | Some old => put_product (<[productId := f old]> (product c)) ;;; ret (f old)
  end.

Definition product_delete (fails : bool) (productId : uuid) : P unit :=
  io fails ;;;
  c <- get_catalog ;;
  match product c !! productId with
  | None => throw InfrastructureError
  | Some _ => put_product (delete productId (product c))
  end.

(** [prisma.invoiceItem.count({ where: { product_id } })]. *)
Definition invoiceItem_count (fails : bool) (productId : uuid) : P nat :=
  io fails ;;;
  c <- get_catalog ;;
  ret (length
         (List.filter
            (fun r => bool_decide (IInvoiceItem.product_id r = Some productId))
            (invoiceItem (documents c)))).

Definition quoteItem_count (fails : bool) (productId : uuid) : P nat :=
  io fails ;;;
  c <- get_catalog ;;
  ret (length
         (List.filter
            (fun r => bool_decide (IQuoteItem.product_id r = Some productId))
            (quoteItem (documents c)))).

Definition invalidateCache (productId companyId : uuid) : P unit := ret tt.


(** [data: { is_active: false }]. *)
Definition deactivate (p : IProduct.t) : IProduct.t :=
  IProduct.mk (IProduct.product_id p) (IProduct.company_id p)
    false (IProduct.track_inventory p) (IProduct.stock_quantity p).

Definition getProductById (fails : bool) (productId : uuid) : P IProduct.t :=
  try_catch
    (product <- product_findUnique fails productId ;;
     match product with
     | None => throw (NotFoundError "Produit" productId)
     | Some product => ret product
     end)
    (fun error =>
       match error with
       | NotFoundError _ _ => throw error
       | _ => throw (ProductError "Erreur lors de la récupération du produit")
       end).

Definition deleteProduct (read_fails count_fails write_fails : bool)
    (productId : uuid) : P unit :=
  try_catch
    (product <- getProductById read_fails productId ;;
     invoiceItemCount <- invoiceItem_count count_fails productId ;;
     quoteItemCount <- quoteItem_count count_fails productId ;;
     (if (0 <? invoiceItemCount)%nat || (0 <? quoteItemCount)%nat
      then product_update write_fails productId deactivate ;;; ret tt
      else product_delete write_fails productId) ;;;
     invalidateCache productId (IProduct.company_id product))
    (fun error =>
       match error with
       | NotFoundError _ _ => throw error
       | _ => throw (ProductError "Erreur lors de la suppression du produit")
       end).




(** Every product that an item of an invoice or of a quote names is
    stored. *)
Definition references_resolve (c : Catalog) : Prop :=
  (forall r p, In r (invoiceItem (documents c)) ->
               IInvoiceItem.product_id r = Some p -> is_Some (product c !! p))
  /\ (forall r p, In r (quoteItem (documents c)) ->
                  IQuoteItem.product_id r = Some p -> is_Some (product c !! p)).

(** A line of an invoice or of a quote names the product. *)
Definition on_document (c : Catalog) (productId : uuid) : Prop :=
  (exists x, In x (invoiceItem (documents c))
             /\ IInvoiceItem.product_id x = Some productId)
  \/ (exists x, In x (quoteItem (documents c))
                /\ IQuoteItem.product_id x = Some productId).

End ProductService.


(** ** invoice.service.ts: sending, payment, deletion, bulk actions *)

(** Row of [payment]. *)
Module IPayment.
Record t := mk {
  payment_id : uuid;
  invoice_id : uuid;
  payment_date : Z;
  amount : JS.number;
  currency : string;
  payment_method : string;
  reference : option string;
  status : string
}.
End IPayment.

(** The optional argument [paymentData] of [markAsPaid]. *)
Module IPaymentData.
Record t := mk {
  payment_date : option Z;
  payment_method : option string;
  payment_reference : option string;
  amount : option JS.number
}.
End IPaymentData.

(** The date columns of [invoice] that the lifecycle operations write. *)
Module InvoiceDates.
Record t := mk {
  sent_at : option Z;
  paid_at : option Z;
  cancelled_at : option Z
}.
Definition none : t := mk None None None.
End InvoiceDates.

Module IBulkInvoiceAction.
Record t := mk {
  action : string;
  invoice_ids : list uuid;
  options : option IPaymentData.t
}.
End IBulkInvoiceAction.

(** [{ success, failed, errors }]; an entry of [errors] keeps the error
    whose message the program records. *)
Module BulkResult.
Inductive failure :=
| Thrown (e : Error)
| ValidationError (message : string).
Record t := mk {
  success : nat;
  failed : nat;
  errors : list (uuid * failure)
}.
End BulkResult.

Module InvoiceLifecycle.

(** The tables of the documents, the date columns of the invoices (an
    absent key stands for a row whose three dates are null) and the
    payments. *)
Record Ledger := mkLedger {
  documents : Store;
  invoiceDates : gmap N InvoiceDates.t;
  payment : list IPayment.t
}.

Definition L (E A : Type) : Type := Ledger -> (E + A) * Ledger.

Definition ret {E A} (a : A) : L E A := fun s => (inr a, s).

Definition throw {E A} (e : E) : L E A := fun s => (inl e, s).

Definition bind {E A B} (m : L E A) (k : A -> L E B) : L E B :=
  fun s =>
    match m s with
    | (inr a, s') => k a s'
    | (inl e, s') => (inl e, s')
    end.

Definition try_catch {E E' A} (m : L E A) (handler : E -> L E' A) : L E' A :=
  fun s =>
    match m s with
    | (inr a, s') => (inr a, s')
    | (inl e, s') => handler e s'
    end.

Declare Scope L_scope.
Delimit Scope L_scope with L.
Notation "x <- m ;; k" := (bind m (fun x => k))
  (at level 100, m at next level, right associativity) : L_scope.
Notation "m ;;; k" := (bind m (fun _ => k))
  (at level 100, right associativity) : L_scope.
Local Open Scope L_scope.

(** A call of a method of the services modelled above. *)
Definition lift {A} (m : M A) : L Error A :=
  fun s =>
    let '(r, st) := run m (documents s) in
    (r, mkLedger st (invoiceDates s) (payment s)).

Definition io (fails : bool) : L Error unit :=
  if fails then throw InfrastructureError else ret tt.

Definition get_ledger {E} : L E Ledger := fun s => (inr s, s).

Definition put_ledger {E} (s : Ledger) : L E unit := fun _ => (inr tt, s).

Definition set_invoice (m : gmap N InvoiceRow.t) (st : Store) : Store :=
  mkStore (companySettings st) m (invoiceItem st) (quote st) (quoteItem st)
    (next_id st).

Definition dates_of (s : Ledger) (invoiceId : uuid) : InvoiceDates.t :=
  default InvoiceDates.none (invoiceDates s !! invoiceId).

(** [invoice.update({ where: { invoice_id }, data })]: [data] is given by
    what it does to the columns of the row and to the date columns. *)
Definition invoice_update (fails : bool) (invoiceId : uuid)
    (data : InvoiceRow.t -> InvoiceRow.t)
    (dates : InvoiceDates.t -> InvoiceDates.t) : L Error InvoiceRow.t :=
  io fails ;;;
  s <- get_ledger ;;
  match invoice (documents s) !! invoiceId with
  | None => throw InfrastructureError
  | Some old =>
      put_ledger
        (mkLedger
           (set_invoice (<[invoiceId := data old]> (invoice (documents s)))
              (documents s))
           (<[invoiceId := dates (dates_of s invoiceId)]> (invoiceDates s))
           (payment s)) ;;;
      ret (data old)
  end.

(** [invoice.delete({ where: { invoice_id } })].  The schema is not part
    of the sources: [cascade] tells whether the relation from
    [invoice_item] deletes the items together with their invoice. *)
Definition invoice_delete (fails cascade : bool) (invoiceId : uuid)
  : L Error unit :=
  io fails ;;;
  s <- get_ledger ;;
  match invoice (documents s) !! invoiceId with
  | None => throw InfrastructureError
  | Some _ =>
      put_ledger
        (mkLedger
           (mkStore (companySettings (documents s))
              (delete invoiceId (invoice (documents s)))
              (if cascade
               then List.filter
                      (fun r => negb (N.eqb (IInvoiceItem.invoice_id r) invoiceId))
                      (invoiceItem (documents s))
               else invoiceItem (documents s))
              (quote (documents s)) (quoteItem (documents s))
              (next_id (documents s)))
           (delete invoiceId (invoiceDates s))
           (payment s))
  end.

(** [payment.count({ where: { invoice_id } })]. *)
Definition payment_count (fails : bool) (invoiceId : uuid) : L Error nat :=
  io fails ;;;
  s <- get_ledger ;;
  ret (length
         (List.filter (fun p => N.eqb (IPayment.invoice_id p) invoiceId)
            (payment s))).

(** [payment.create({ data })]; the database supplies [payment_id]. *)
Definition payment_create (fails : bool) (data : uuid -> IPayment.t)
  : L Error IPayment.t :=
  io fails ;;;
  s <- get_ledger ;;
  let st := documents s in
  let row := data (next_id st) in
  put_ledger
    (mkLedger
       (mkStore (companySettings st) (invoice st) (invoiceItem st) (quote st)
          (quoteItem st) (N.succ (next_id st)))
       (invoiceDates s)
       (payment s ++ [row])) ;;;
  ret row.

(** [prisma.$transaction(async (tx) => body)] for a body whose statements
    all go through [tx]: they take effect together, or not at all. *)
Definition transaction {A} (body : L Error A) : L Error A :=
  fun s =>
    match body s with
    | (inr a, s') => (inr a, s')
    | (inl e, _) => (inl e, s)
    end.

Definition invalidateCache (invoiceId companyId : uuid) : L Error unit := ret tt.

(** [data: { status: "sent", sent_at: new Date() }]. *)
Definition set_status (status : string) (old : InvoiceRow.t) : InvoiceRow.t :=
  InvoiceRow.mk
    (InvoiceRow.invoice_id old) (InvoiceRow.customer_id old)
    (InvoiceRow.user_id old) (InvoiceRow.company_id old)
    (InvoiceRow.invoice_number old) (InvoiceRow.invoice_date old)
    (InvoiceRow.due_date old)
    (InvoiceRow.amount_excluding_tax old) (InvoiceRow.tax old)
    (InvoiceRow.amount_including_tax old)
    (InvoiceRow.discount_amount old) (InvoiceRow.discount_percentage old)
    (InvoiceRow.shipping_cost old)
    status
    (InvoiceRow.payment_status old) (InvoiceRow.payment_method old)
    (InvoiceRow.currency old) (InvoiceRow.notes old).

Definition set_sent_at (now : Z) (d : InvoiceDates.t) : InvoiceDates.t :=
  InvoiceDates.mk (Some now) (InvoiceDates.paid_at d) (InvoiceDates.cancelled_at d).

Definition set_paid_at (now : Z) (d : InvoiceDates.t) : InvoiceDates.t :=
  InvoiceDates.mk (InvoiceDates.sent_at d) (Some now) (InvoiceDates.cancelled_at d).

Definition set_cancelled_at (now : Z) (d : InvoiceDates.t) : InvoiceDates.t :=
  InvoiceDates.mk (InvoiceDates.sent_at d) (InvoiceDates.paid_at d) (Some now).

(** [data: { payment_status: "paid", paid_at, payment_method }]. *)
Definition paid_data (payment_method : option string) (old : InvoiceRow.t)
  : InvoiceRow.t :=
  InvoiceRow.mk
    (InvoiceRow.invoice_id old) (InvoiceRow.customer_id old)
    (InvoiceRow.user_id old) (InvoiceRow.company_id old)
    (InvoiceRow.invoice_number old) (InvoiceRow.invoice_date old)
    (InvoiceRow.due_date old)
    (InvoiceRow.amount_excluding_tax old) (InvoiceRow.tax old)
    (InvoiceRow.amount_including_tax old)
    (InvoiceRow.discount_amount old) (InvoiceRow.discount_percentage old)
    (InvoiceRow.shipping_cost old)
    (InvoiceRow.status old)
    "paid" payment_method
    (InvoiceRow.currency old) (InvoiceRow.notes old).

(** The [data] literal of [tx.payment.create]; [now] is the clock read
    when [paymentData.payment_date] is absent. *)
Definition payment_data (invoiceId : uuid) (invoice : IInvoice.t)
    (paymentData : IPaymentData.t) (now : Z) : uuid -> IPayment.t :=
  fun payment_id =>
    IPayment.mk payment_id invoiceId
      (JS.or_obj (IPaymentData.payment_date paymentData) now)
      (JS.or_num (IPaymentData.amount paymentData)
         (JS.toNumber (InvoiceRow.amount_including_tax (IInvoice.row invoice))))
      (InvoiceRow.currency (IInvoice.row invoice))
      (JS.or_string (IPaymentData.payment_method paymentData) "cash")
      (IPaymentData.payment_reference paymentData)
      "completed".

Definition getInvoiceById (fails : bool) (invoiceId : uuid) : L Error IInvoice.t :=
  lift (InvoiceService.getInvoiceById fails invoiceId).

Definition markAsSent (F : Faults) (now : Z) (invoiceId : uuid)
  : L Error IInvoice.t :=
  try_catch
    (invoice <- getInvoiceById (lookup_fails F) invoiceId ;;
     (if negb (String.eqb (IInvoice.status invoice) "draft")
         && negb (String.eqb (IInvoice.status invoice) "pending")
      then throw (InvoiceStatusError (IInvoice.status invoice)
                    "marquer comme envoyée")
      else ret tt) ;;;
     invoice_update (write_fails F) invoiceId (set_status "sent") (set_sent_at now) ;;;
     invalidateCache invoiceId (IInvoice.company_id invoice) ;;;
     getInvoiceById (readback_fails F) invoiceId)
    (fun error =>
       match error with
       | NotFoundError _ _ | InvoiceStatusError _ _ => throw error
       | _ => throw (InvoiceError "Erreur lors du marquage comme envoyée")
       end).

(** [payment_fails] tells whether [tx.payment.create] fails; [now_update]
    is the clock read for [paid_at], [now_payment] the one read for the
    date of the payment. *)
Definition markAsPaid (F : Faults) (payment_fails : bool)
    (now_update now_payment : Z) (invoiceId : uuid)
    (paymentData : option IPaymentData.t) : L Error IInvoice.t :=
  try_catch
    (invoice <- getInvoiceById (lookup_fails F) invoiceId ;;
     (if String.eqb (InvoiceRow.payment_status (IInvoice.row invoice)) "paid"
      then throw (InvoiceStatusError
                    (InvoiceRow.payment_status (IInvoice.row invoice))
                    "marquer comme payée")
      else ret tt) ;;;
     transaction
       (invoice_update (write_fails F) invoiceId
          (paid_data
             (JS.or_string_opt
                (match paymentData with
                 | Some d => IPaymentData.payment_method d
                 | None => None
                 end)
                (InvoiceRow.payment_method (IInvoice.row invoice))))
          (set_paid_at
             (JS.or_obj
                (match paymentData with
                 | Some d => IPaymentData.payment_date d
                 | None => None
                 end)
                now_update)) ;;;
        match paymentData with
        | Some d =>
            payment_create payment_fails
              (payment_data invoiceId invoice d now_payment) ;;;
            ret tt
        | None => ret tt
        end) ;;;
     invalidateCache invoiceId (IInvoice.company_id invoice) ;;;
     getInvoiceById (readback_fails F) invoiceId)
    (fun error =>
       match error with
       | NotFoundError _ _ | InvoiceStatusError _ _ => throw error
       | _ => throw (InvoiceError "Erreur lors du marquage comme payée")
       end).

(** [count_fails] tells whether the count of the payments fails. *)
Definition deleteInvoice (F : Faults) (count_fails cascade : bool) (now : Z)
    (invoiceId : uuid) : L Error unit :=
  try_catch
    (invoice <- getInvoiceById (lookup_fails F) invoiceId ;;
     (if String.eqb (IInvoice.status invoice) "paid"
      then throw (InvoiceStatusError (IInvoice.status invoice) "supprimer")
      else ret tt) ;;;
     paymentCount <- payment_count count_fails invoiceId ;;
     (if (0 <? paymentCount)%nat
      then invoice_update (write_fails F) invoiceId (set_status "cancelled")
             (set_cancelled_at now) ;;;
           ret tt
      else invoice_delete (write_fails F) cascade invoiceId) ;;;
     invalidateCache invoiceId (IInvoice.company_id invoice))
    (fun error =>
       match error with
       | NotFoundError _ _ | InvoiceStatusError _ _ => throw error
       | _ => throw (InvoiceError "Erreur lors de la suppression de la facture")
       end).

(** An error of a service method, as the loop of [bulkAction] receives
    it. *)
Definition thrown {A} (m : L Error A) : L BulkResult.failure A :=
  try_catch m (fun e => throw (BulkResult.Thrown e)).

(** What an iteration of [bulkAction] meets: the steps that fail and the
    readings of the clock. *)
Record Iteration := mkIteration {
  faults : Faults;
  payment_fails : bool;
  count_fails : bool;
  now_update : Z;
  now_payment : Z
}.

(** The [switch] of [bulkAction] for one invoice.  [updateInvoice] copies
    the fields it knows from its argument, and [cancelled_at] is not one
    of them. *)
Definition bulk_switch (cascade : bool) (env : Iteration)
    (action : IBulkInvoiceAction.t) (invoiceId : uuid)
  : L BulkResult.failure unit :=
  let name := IBulkInvoiceAction.action action in
  if String.eqb name "send"
  then thrown (markAsSent (faults env) (now_update env) invoiceId) ;;; ret tt
  else if String.eqb name "mark_paid"
  then thrown (markAsPaid (faults env) (payment_fails env) (now_update env)
                 (now_payment env) invoiceId
                 (IBulkInvoiceAction.options action)) ;;; ret tt
  else if String.eqb name "mark_cancelled"
  then thrown (lift (InvoiceService.updateInvoice (faults env) invoiceId
                       (Request.status_patch "cancelled"))) ;;; ret tt
  else if String.eqb name "delete"
  then thrown (deleteInvoice (faults env) (count_fails env) cascade
                 (now_update env) invoiceId)
  else throw (BulkResult.ValidationError
                (String.append "Action non supportée: " name)).

(** The loop of [bulkAction] from iteration [i] on. *)
Fixpoint bulk_loop (cascade : bool) (env : nat -> Iteration)
    (action : IBulkInvoiceAction.t) (i : nat) (invoice_ids : list uuid)
    (results : BulkResult.t) : L Error BulkResult.t :=
  match invoice_ids with
  | [] => ret results
  | invoiceId :: rest =>
      results' <-
        try_catch
          (bulk_switch cascade (env i) action invoiceId ;;;
           ret (BulkResult.mk (S (BulkResult.success results))
                  (BulkResult.failed results) (BulkResult.errors results)))
          (fun error =>
             ret (BulkResult.mk (BulkResult.success results)
                    (S (BulkResult.failed results))
                    (BulkResult.errors results ++ [(invoiceId, error)]))) ;;
      bulk_loop cascade env action (S i) rest results'
  end.

Definition bulkAction (cascade : bool) (env : nat -> Iteration)
    (action : IBulkInvoiceAction.t) : L Error BulkResult.t :=
  try_catch
    (bulk_loop cascade env action 0 (IBulkInvoiceAction.invoice_ids action)
       (BulkResult.mk 0 0 []))
    (fun _ => throw (InvoiceError "Erreur lors de l'action en lot")).


(** Nothing fails, and the clock reads [now]. *)
Definition calm (now : Z) : nat -> Iteration :=
  fun _ => mkIteration no_faults false false now now.

End InvoiceLifecycle.

(** *** Sample catalog *)

Module Inventory.

(** Tracked, 10 in stock, named by a line of invoice 20. *)
Definition widget : IProduct.t := IProduct.mk 60 1 true true (Some 10%float).

(** Tracked, 4 in stock, on no document. *)
Definition gadget : IProduct.t := IProduct.mk 61 1 true true (Some 4%float).

(** Not tracked. *)
Definition service : IProduct.t := IProduct.mk 62 1 true false None.

Definition widget_line : IInvoiceItem.t :=
  IInvoiceItem.mk 23 20 (Some 60%N) (Some "Widget"%string) None 2%float "u" 5%float
    None None "STANDARD" 10%float 12%float 2.

Definition documents : Store :=
  mkStore (companySettings Sample.store) (invoice Sample.store)
    (invoiceItem Sample.store ++ [widget_line])
    (quote Sample.store) (quoteItem Sample.store) (next_id Sample.store).

Definition catalog : ProductService.Catalog :=
  ProductService.mkCatalog documents
    (<[60%N := widget]> (<[61%N := gadget]> {[ 62%N := service ]})).

End Inventory.

(** *** Sample ledger *)

Module Books.

(** A payment of 120 on the paid invoice 30. *)
Definition payment_1 : IPayment.t :=
  IPayment.mk 90 30 2500 120%float "EUR" "bank_transfer" None "completed".

(** An invoice that was sent, on which nothing has been paid. *)
Definition sent_invoice : InvoiceRow.t :=
  InvoiceRow.mk 50 5 2 1 "INV-0003" 1000 3000 100%float 20%float 120%float
    0%float None 0%float "sent" "unpaid" None "EUR" None.

Definition documents : Store :=
  mkStore (companySettings Sample.store)
    (<[50%N := sent_invoice]> (invoice Sample.store))
    (invoiceItem Sample.store) (quote Sample.store) (quoteItem Sample.store)
    (next_id Sample.store).

Definition ledger : InvoiceLifecycle.Ledger :=
  InvoiceLifecycle.mkLedger documents
    {[ 50%N := InvoiceDates.mk (Some 1200) None None ]}
    [payment_1].


End Books.

(** * Properties *)

(** Symbolic execution of the monadic code: unfolds the monad, the database
    client and the read operations, and projects stores and records. *)
Ltac mred1 :=
  cbv beta iota zeta delta
    [run bind ret throw try_catch io get_db put_db enqueue get_tx_view fresh_id
     transaction commit no_faults
     CompanyService.invalidateCache CompanyService.getCompanySettings
     CompanyService.createDefaultSettings
     InvoiceService.invalidateCache InvoiceService.getInvoiceById
     QuoteService.invalidateCache QuoteService.getQuoteById
     Prisma.companySettings_findUnique Prisma.companySettings_create
     Prisma.companySettings_update Prisma.invoice_findUnique
     Prisma.quote_findUnique Prisma.quote_update Prisma.set_quote
     Prisma.set_companySettings Prisma.tx_invoice_create Prisma.tx_invoice_update
     Prisma.tx_invoiceItem_deleteMany Prisma.tx_invoiceItem_createMany
     Prisma.tx_quote_update
     IQuote.status IQuote.validity_date IQuote.company_id
     IQuote.converted_to_invoice IInvoice.invoice_id IInvoice.status
     IInvoice.company_id];
  cbn [db pending fst snd app fold_left apply_write
       companySettings invoice invoiceItem quote quoteItem next_id
       IQuote.row IQuote.items IInvoice.row IInvoice.items
       settings_read_fails settings_write_fails lookup_fails write_fails
       readback_fails ICompanySettings.company_id].

Ltac mred := repeat (progress mred1).

(** ** The monetary calculator *)

Lemma existsb_eqb_false (code : string) (l : list string) :
  ~ In code l -> existsb (String.eqb code) l = false.
Proof.
  induction l as [|k l IH]; simpl; [reflexivity|].
  intros H. rewrite IH by tauto.
  destruct (String.eqb_spec code k); [subst; tauto | reflexivity].
Qed.

(** The four codes with a non-zero rate get the rate of the table. *)
Lemma getVatRateValue_nonzero_codes :
  InvoiceService.getVatRateValue "REDUCED_1" = JS.Num 2.1%float
  /\ InvoiceService.getVatRateValue "REDUCED_2" = JS.Num 5.5%float
  /\ InvoiceService.getVatRateValue "REDUCED_3" = JS.Num 10%float
  /\ InvoiceService.getVatRateValue "STANDARD" = JS.Num 20%float.
Proof. repeat split; reflexivity. Qed.

(** A code that is neither in the table nor a member of
    [Object.prototype] gets 20. *)
Lemma getVatRateValue_unknown (code : string) :
  ~ In code vat_codes -> ~ In code JS.object_prototype ->
  InvoiceService.getVatRateValue code = JS.Num 20%float.
Proof.
  intros Hown Hproto. unfold InvoiceService.getVatRateValue, JS.get.
  rewrite (existsb_eqb_false _ _ Hproto).
  unfold vat_codes in Hown. simpl in Hown. unfold JS.own.
  repeat match goal with
         | |- context [String.eqb ?k code] =>
             destruct (String.eqb_spec k code); [subst; tauto|]
         end.
  reflexivity.
Qed.

(** The name of a member of [Object.prototype] is answered with that
    member, not with a rate. *)
Lemma getVatRateValue_inherited :
  InvoiceService.getVatRateValue "constructor" = JS.Inherited "constructor".
Proof. reflexivity. Qed.

(** C1: on the codes ZERO and EXPORT, whose rate in the table is 0,
    [getVatRateValue] answers 20 in both services: the stored 0 is falsy
    and the [|| 20.0] fallback replaces it. *)
Lemma getVatRateValue_zero_rated :
  InvoiceService.getVatRateValue "ZERO" = JS.Num 20%float
  /\ InvoiceService.getVatRateValue "EXPORT" = JS.Num 20%float
  /\ QuoteService.getVatRateValue "ZERO" = JS.Num 20%float
  /\ QuoteService.getVatRateValue "EXPORT" = JS.Num 20%float.
Proof. repeat split; reflexivity. Qed.

(** The worked example of the specification: two items, 3 x 100 at the
    standard rate and 1 x 50 at the second reduced rate. *)
Example totals_example :
  Calculated.totals
    (QuoteService.calculateQuoteTotals
       [Sample.item 3%float 100%float None None "STANDARD";
        Sample.item 1%float 50%float None None "REDUCED_2"])
  = Totals.mk 350%float 62.75%float 412.75%float.
Proof. reflexivity. Qed.

(** Position-wise reading of a mapped list. *)
Lemma lookup_map {A B} (f : A -> B) (l : list A) (i : nat) :
  map f l !! i = option_map f (l !! i).
Proof.
  revert i. induction l as [|x l IH]; intros [|i]; simpl; auto.
Qed.

(** C8 (as stated): with a percentage of 0 and an amount of 10 on a line
    of 100, the calculators subtract the amount (90), where the statement
    asks for the percentage alone (100). *)
Lemma zero_percentage_uses_amount :
  ~ percentage_takes_precedence InvoiceService.calculateInvoiceTotals
  /\ ~ percentage_takes_precedence QuoteService.calculateQuoteTotals.
Proof.
  split; intros H; specialize (H Sample.zero_percent_item 0%float eq_refl);
    vm_compute in H; discriminate H.
Qed.

(** C8 (amended): for the item at any position of the list, both
    calculators subtract the percentage discount alone when
    [discount_percentage] is set to a number other than 0 and NaN, whatever
    [discount_amount] holds; when [discount_percentage] is absent, 0 or
    NaN they subtract [discount_amount] (nothing when it is absent, 0 or
    NaN).  The two discounts are never added. *)
Theorem discount_precedence (l : list Item.t) (i : nat) (item : Item.t) :
  l !! i = Some item ->
  exists c,
    Calculated.items (InvoiceService.calculateInvoiceTotals l) !! i = Some c
    /\ Calculated.items (QuoteService.calculateQuoteTotals l) !! i = Some c
    /\ CalculatedItem.item c = item
    /\ (forall p, Item.discount_percentage item = Some p -> JS.truthy p = true ->
        CalculatedItem.total_excluding_tax c
        = (lineTotal item - lineTotal item * p / 100)%float)
    /\ (JS.truthy_opt (Item.discount_percentage item) = false ->
        forall a, Item.discount_amount item = Some a -> JS.truthy a = true ->
        CalculatedItem.total_excluding_tax c = (lineTotal item - a)%float)
    /\ (JS.truthy_opt (Item.discount_percentage item) = false ->
        JS.truthy_opt (Item.discount_amount item) = false ->
        CalculatedItem.total_excluding_tax c = (lineTotal item - 0)%float).
Proof.
  intros Hi. eexists. split; [|split].
  - unfold InvoiceService.calculateInvoiceTotals. cbn [Calculated.items].
    rewrite lookup_map, Hi. reflexivity.
  - unfold QuoteService.calculateQuoteTotals. cbn [Calculated.items].
    rewrite lookup_map, Hi. reflexivity.
  - cbn [CalculatedItem.item CalculatedItem.total_excluding_tax].
    fold (lineTotal item). repeat split.
    + intros p Hp Ht. rewrite Hp. cbn [JS.truthy_opt JS.num]. rewrite Ht. reflexivity.
    + intros Hpct a Ha Ht. rewrite Hpct. unfold JS.or_num. rewrite Ha.
      cbn [JS.truthy_opt JS.num]. rewrite Ht. reflexivity.
    + intros Hpct Hamt. rewrite Hpct. unfold JS.or_num. rewrite Hamt. reflexivity.
Qed.

(** 10 percent and an amount of 5 on a line of 200: the total is 180. *)
Lemma discount_precedence_witness :
  exists c,
    Calculated.items
      (InvoiceService.calculateInvoiceTotals
         [Sample.item 2%float 100%float (Some 10%float) (Some 5%float) "STANDARD"])
      !! 0%nat = Some c
    /\ CalculatedItem.total_excluding_tax c = 180%float.
Proof.
  destruct (discount_precedence
              [Sample.item 2%float 100%float (Some 10%float) (Some 5%float) "STANDARD"]
              0 _ eq_refl) as (c & Hc & _ & _ & Hp & _).
  exists c. split; [exact Hc|].
  rewrite (Hp 10%float eq_refl eq_refl). reflexivity.
Defined.

(** C10: the two services compute the same totals, item by item and for
    the document, and resolve every VAT code alike. *)
Theorem calculators_agree :
  (forall itemsData : list Item.t,
      InvoiceService.calculateInvoiceTotals itemsData
      = QuoteService.calculateQuoteTotals itemsData)
  /\ (forall vatRate : string,
         InvoiceService.getVatRateValue vatRate = QuoteService.getVatRateValue vatRate).
Proof. split; reflexivity. Qed.

(** C9: the conversion does not depend on [apply_current_prices]: the
    invoice request built from the quote, the outcome and the resulting
    database are the same for both values of the flag. *)
Theorem apply_current_prices_irrelevant
    (F FI : Faults) (now_date now_ms : Z) (quoteId : N) (st : Store)
    (invoice_date due_date payment_terms : option Z) (notes : option string)
    (keep_original_items : bool) :
  (forall quote : IQuote.t,
      QuoteService.invoiceData quote
        (IQuoteConversion.mk invoice_date due_date payment_terms notes
           keep_original_items true) now_date now_ms
      = QuoteService.invoiceData quote
          (IQuoteConversion.mk invoice_date due_date payment_terms notes
             keep_original_items false) now_date now_ms)
  /\ run (QuoteService.convertToInvoice F FI now_date now_ms quoteId
            (IQuoteConversion.mk invoice_date due_date payment_terms notes
               keep_original_items true)) st
     = run (QuoteService.convertToInvoice F FI now_date now_ms quoteId
              (IQuoteConversion.mk invoice_date due_date payment_terms notes
                 keep_original_items false)) st.
Proof. split; reflexivity. Qed.

(** ** The sequence generator *)

Lemma substring_zeros (k : nat) :
  substring 0 k (JS.repeat_string "0" k) = zeros k.
Proof.
  induction k as [|k IH]; [reflexivity|].
  change (JS.repeat_string "0" (S k)) with (String "0"%char (JS.repeat_string "0" k)).
  cbn [substring zeros]. now rewrite IH.
Qed.

(** [padStart(4, "0")] puts the missing zeros in front. *)
Lemma padStart_zeros (s : string) :
  JS.padStart 4 "0" s = String.append (zeros (4 - String.length s)) s.
Proof. unfold JS.padStart. now rewrite substring_zeros. Qed.

(** The template string of the generators is [formatted]. *)
Lemma number_formatted (pfx : string) (n : Z) :
  String.append pfx (String.append "-" (JS.padStart 4 "0" (JS.toString n)))
  = formatted pfx n.
Proof. unfold formatted, digits. now rewrite padStart_zeros. Qed.

(** Unfolding of concatenation on a non-empty left operand. *)
Lemma append_cons (c : ascii) (a b : string) :
  String.append (String c a) b = String c (String.append a b).
Proof. reflexivity. Qed.

(** Leading zeros do not change the number read. *)
Lemma read_digits_zeros (k : nat) (s : string) :
  read_digits (String.append (zeros k) s) = read_digits s.
Proof.
  unfold read_digits. induction k as [|k IH]; [reflexivity|].
  cbn [zeros]. rewrite append_cons. cbn [NilEmpty.uint_of_string].
  destruct (NilEmpty.uint_of_string (String.append (zeros k) s)) as [d|];
    destruct (NilEmpty.uint_of_string s) as [d'|]; cbn in *;
    try change (Z.of_uint (Decimal.D0 d)) with (Z.of_uint d); congruence.
Qed.

(** The digits of a non-negative counter read back as the counter. *)
Lemma read_digits_toString (n : Z) :
  0 <= n -> read_digits (digits n) = Some n.
Proof.
  intros Hn. unfold read_digits, digits, JS.toString.
  destruct n as [|p|p]; [reflexivity| |lia].
  cbn [Z.to_int NilZero.string_of_int].
  assert (H : NilEmpty.uint_of_string (NilZero.string_of_uint (Pos.to_uint p))
              = Some (Pos.to_uint p)).
  { pose proof (DecimalPos.Unsigned.to_uint_nonnil p) as Hnil.
    destruct (Pos.to_uint p); [contradiction| ..]; apply NilEmpty.usu. }
  rewrite H. cbn [option_map]. f_equal.
  unfold Z.of_uint. now rewrite DecimalPos.Unsigned.of_to.
Qed.

(** Concatenation is injective in its right operand. *)
Lemma append_inj_l (p s t : string) :
  String.append p s = String.append p t -> s = t.
Proof.
  induction p as [|c p IH]; [auto|]. rewrite !append_cons. intros [= H]. auto.
Qed.

(** Different counters give different numbers. *)
Lemma formatted_inj (pfx : string) (n m : Z) :
  0 <= n -> 0 <= m -> formatted pfx n = formatted pfx m -> n = m.
Proof.
  intros Hn Hm H. unfold formatted in H.
  apply append_inj_l, append_inj_l in H.
  apply (f_equal read_digits) in H.
  rewrite !read_digits_zeros, !read_digits_toString in H by assumption.
  congruence.
Qed.

(** The numeric part has four characters, or as many as the counter has
    digits when these are more. *)
Lemma formatted_length (pfx : string) (n : Z) :
  (String.length (formatted pfx n)
   = String.length pfx + 1 + Nat.max 4 (String.length (digits n)))%nat.
Proof.
  unfold formatted.
  assert (Hz : forall k, String.length (zeros k) = k)
    by (induction k; cbn; congruence).
  assert (Ha : forall a b, String.length (String.append a b)
                           = (String.length a + String.length b)%nat)
    by (induction a; intros; [|rewrite append_cons; cbn [String.length]; rewrite IHa];
        reflexivity).
  rewrite !Ha, Hz. cbn [String.length]. lia.
Qed.

(** From four digits on, nothing is added to the digits. *)
Lemma formatted_wide (pfx : string) (n : Z) :
  (4 <= String.length (digits n))%nat ->
  formatted pfx n = String.append pfx (String.append "-" (digits n)).
Proof.
  intros H. unfold formatted.
  replace (4 - String.length (digits n))%nat with 0%nat by lia. reflexivity.
Qed.

(** Writing a counter its own value changes nothing. *)
Lemma set_next_invoice_number_same (s : ICompanySettings.t) :
  CompanyService.set_next_invoice_number (ICompanySettings.next_invoice_number s) s = s.
Proof. now destruct s. Qed.

Lemma set_next_quote_number_same (s : ICompanySettings.t) :
  CompanyService.set_next_quote_number (ICompanySettings.next_quote_number s) s = s.
Proof. now destruct s. Qed.

(** Outcome of the generator for any failure scenario. *)
Lemma getNextInvoiceNumber_post (F : Faults) (companyId : N) (w : World) :
  let s := settings_of (db w) companyId in
  match CompanyService.getNextInvoiceNumber F companyId w with
  | (inr num, w') =>
      num = formatted (ICompanySettings.invoice_prefix s)
              (ICompanySettings.next_invoice_number s)
      /\ w' = mkWorld
                (Prisma.set_companySettings
                   (<[companyId := CompanyService.set_next_invoice_number
                                     (ICompanySettings.next_invoice_number s + 1) s]>
                      (companySettings (db w))) (db w))
                (pending w)
  | (inl e, w') =>
      e = CompanyError "Erreur lors de la génération du numéro de facture"
      /\ invoice (db w') = invoice (db w)
      /\ invoiceItem (db w') = invoiceItem (db w)
      /\ quote (db w') = quote (db w)
      /\ quoteItem (db w') = quoteItem (db w)
      /\ next_id (db w') = next_id (db w)
      /\ pending w' = pending w
      /\ settings_read_fails F || settings_write_fails F = true
  end.
Proof.
  unfold settings_of, CompanyService.getNextInvoiceNumber. mred.
  destruct (settings_read_fails F); mred; [auto 10|].
  destruct (companySettings (db w) !! companyId) as [s|] eqn:Hs; mred.
  - destruct (settings_write_fails F); mred; [auto 10|].
    rewrite Hs. mred. rewrite number_formatted. auto.
  - destruct (settings_write_fails F); mred; [auto 10|].
    rewrite lookup_insert_eq. mred. rewrite insert_insert_eq, number_formatted. auto.
Qed.

(** When its two statements succeed the generator returns the formatted
    counter and stores its successor. *)
Lemma getNextInvoiceNumber_ok (F : Faults) (companyId : N) (w : World) :
  settings_read_fails F = false ->
  settings_write_fails F = false ->
  let s := settings_of (db w) companyId in
  CompanyService.getNextInvoiceNumber F companyId w
  = (inr (formatted (ICompanySettings.invoice_prefix s)
            (ICompanySettings.next_invoice_number s)),
     mkWorld
       (Prisma.set_companySettings
          (<[companyId := CompanyService.set_next_invoice_number
                            (ICompanySettings.next_invoice_number s + 1) s]>
             (companySettings (db w))) (db w))
       (pending w)).
Proof.
  intros Hr Hw.
  unfold settings_of, CompanyService.getNextInvoiceNumber. mred.
  rewrite Hr, Hw. mred.
  destruct (companySettings (db w) !! companyId) as [s|] eqn:Hs; mred.
  - rewrite Hs. mred. now rewrite number_formatted.
  - rewrite lookup_insert_eq. mred. now rewrite insert_insert_eq, number_formatted.
Qed.

(** The same for quotes, when no step fails. *)
Lemma getNextQuoteNumber_ok (companyId : N) (w : World) :
  let s := settings_of (db w) companyId in
  CompanyService.getNextQuoteNumber no_faults companyId w
  = (inr (formatted (ICompanySettings.quote_prefix s)
            (ICompanySettings.next_quote_number s)),
     mkWorld
       (Prisma.set_companySettings
          (<[companyId := CompanyService.set_next_quote_number
                            (ICompanySettings.next_quote_number s + 1) s]>
             (companySettings (db w))) (db w))
       (pending w)).
Proof.
  unfold settings_of, CompanyService.getNextQuoteNumber. mred.
  destruct (companySettings (db w) !! companyId) as [s|] eqn:Hs; mred.
  - rewrite Hs. mred. now rewrite number_formatted.
  - rewrite lookup_insert_eq. mred. now rewrite insert_insert_eq, number_formatted.
Qed.

(** Stored settings are the settings the generator uses. *)
Lemma settings_of_lookup (st : Store) (companyId : N) (s : ICompanySettings.t) :
  companySettings st !! companyId = Some s -> settings_of st companyId = s.
Proof. unfold settings_of. now intros ->. Qed.

(** [k] calls in sequence issue the numbers of [n], ..., [n + k - 1] and
    leave [n + k] stored. *)
Lemma consecutive_invoice_numbers (k : nat) :
  forall (w : World) (companyId : N) (s : ICompanySettings.t),
    companySettings (db w) !! companyId = Some s ->
    exists w',
      consecutive k (CompanyService.getNextInvoiceNumber no_faults companyId) w
      = (inr (map (fun i => formatted (ICompanySettings.invoice_prefix s)
                              (ICompanySettings.next_invoice_number s + Z.of_nat i))
                (seq 0 k)), w')
      /\ companySettings (db w') !! companyId
         = Some (CompanyService.set_next_invoice_number
                   (ICompanySettings.next_invoice_number s + Z.of_nat k) s).
Proof.
  induction k as [|k IH]; intros w companyId s Hs.
  - exists w. split; [reflexivity|]. rewrite Hs, Z.add_0_r.
    now rewrite set_next_invoice_number_same.
  - cbn [consecutive]. unfold bind at 1.
    rewrite getNextInvoiceNumber_ok, (settings_of_lookup _ _ _ Hs) by reflexivity.
    cbv beta iota zeta. unfold bind at 1.
    match goal with |- context [consecutive k _ ?w1] =>
      destruct (IH w1 companyId
                  (CompanyService.set_next_invoice_number
                     (ICompanySettings.next_invoice_number s + 1) s))
        as (w' & Hrun & Hw') end.
    { cbn. apply lookup_insert_eq. }
    rewrite Hrun. exists w'. split.
    + unfold ret. f_equal. f_equal. cbn [seq map]. f_equal.
      * now rewrite Z.add_0_r.
      * rewrite <- seq_shift, map_map. apply map_ext. intros i.
        cbn [ICompanySettings.invoice_prefix ICompanySettings.next_invoice_number
             CompanyService.set_next_invoice_number]. f_equal. lia.
    + rewrite Hw'. f_equal. unfold CompanyService.set_next_invoice_number.
      cbn. f_equal. lia.
Qed.

Lemma consecutive_quote_numbers (k : nat) :
  forall (w : World) (companyId : N) (s : ICompanySettings.t),
    companySettings (db w) !! companyId = Some s ->
    exists w',
      consecutive k (CompanyService.getNextQuoteNumber no_faults companyId) w
      = (inr (map (fun i => formatted (ICompanySettings.quote_prefix s)
                              (ICompanySettings.next_quote_number s + Z.of_nat i))
                (seq 0 k)), w')
      /\ companySettings (db w') !! companyId
         = Some (CompanyService.set_next_quote_number
                   (ICompanySettings.next_quote_number s + Z.of_nat k) s).
Proof.
  induction k as [|k IH]; intros w companyId s Hs.
  - exists w. split; [reflexivity|]. rewrite Hs, Z.add_0_r.
    now rewrite set_next_quote_number_same.
  - cbn [consecutive]. unfold bind at 1.
    rewrite getNextQuoteNumber_ok, (settings_of_lookup _ _ _ Hs).
    cbv beta iota zeta. unfold bind at 1.
    match goal with |- context [consecutive k _ ?w1] =>
      destruct (IH w1 companyId
                  (CompanyService.set_next_quote_number
                     (ICompanySettings.next_quote_number s + 1) s))
        as (w' & Hrun & Hw') end.
    { cbn. apply lookup_insert_eq. }
    rewrite Hrun. exists w'. split.
    + unfold ret. f_equal. f_equal. cbn [seq map]. f_equal.
      * now rewrite Z.add_0_r.
      * rewrite <- seq_shift, map_map. apply map_ext. intros i.
        cbn [ICompanySettings.quote_prefix ICompanySettings.next_quote_number
             CompanyService.set_next_quote_number]. f_equal. lia.
    + rewrite Hw'. f_equal. unfold CompanyService.set_next_quote_number.
      cbn. f_equal. lia.
Qed.

(** The numbers of consecutive counters are pairwise different. *)
Lemma formatted_NoDup (pfx : string) (n : Z) (k : nat) :
  0 <= n ->
  NoDup (map (fun i => formatted pfx (n + Z.of_nat i)) (seq 0 k)).
Proof.
  intros Hn.
  change (NoDup ((fun i => formatted pfx (n + Z.of_nat i)) <$> seq 0 k)).
  apply NoDup_fmap_2; [|apply NoDup_seq].
  intros i j H. apply formatted_inj in H; lia.
Qed.

(** C7: for a company whose settings hold the counter [n >= 0] and the
    prefix [p], a call of either generator returns [p ++ "-" ++] the digits
    of [n] padded with zeros to at least four characters and stores
    [n + 1]; [k] calls in sequence return the numbers of [n], [n + 1], ...,
    [n + k - 1], which are pairwise different, and leave [n + k] stored. *)
Theorem sequence_generator_spec
    (st : Store) (companyId : N) (s : ICompanySettings.t) (k : nat) :
  companySettings st !! companyId = Some s ->
  0 <= ICompanySettings.next_invoice_number s ->
  0 <= ICompanySettings.next_quote_number s ->
  (exists st',
      run (CompanyService.getNextInvoiceNumber no_faults companyId) st
      = (inr (formatted (ICompanySettings.invoice_prefix s)
                (ICompanySettings.next_invoice_number s)), st')
      /\ ICompanySettings.next_invoice_number <$> companySettings st' !! companyId
         = Some (ICompanySettings.next_invoice_number s + 1))
  /\ (exists st',
         run (CompanyService.getNextQuoteNumber no_faults companyId) st
         = (inr (formatted (ICompanySettings.quote_prefix s)
                   (ICompanySettings.next_quote_number s)), st')
         /\ ICompanySettings.next_quote_number <$> companySettings st' !! companyId
            = Some (ICompanySettings.next_quote_number s + 1))
  /\ (exists numbers st',
         run (consecutive k (CompanyService.getNextInvoiceNumber no_faults companyId)) st
         = (inr numbers, st')
         /\ numbers = map (fun i => formatted (ICompanySettings.invoice_prefix s)
                                      (ICompanySettings.next_invoice_number s + Z.of_nat i))
                        (seq 0 k)
         /\ NoDup numbers
         /\ ICompanySettings.next_invoice_number <$> companySettings st' !! companyId
            = Some (ICompanySettings.next_invoice_number s + Z.of_nat k))
  /\ (exists numbers st',
         run (consecutive k (CompanyService.getNextQuoteNumber no_faults companyId)) st
         = (inr numbers, st')
         /\ numbers = map (fun i => formatted (ICompanySettings.quote_prefix s)
                                      (ICompanySettings.next_quote_number s + Z.of_nat i))
                        (seq 0 k)
         /\ NoDup numbers
         /\ ICompanySettings.next_quote_number <$> companySettings st' !! companyId
            = Some (ICompanySettings.next_quote_number s + Z.of_nat k)).
Proof.
  intros Hs Hi Hq. repeat split.
  - unfold run. rewrite getNextInvoiceNumber_ok by reflexivity.
    cbn [db]. rewrite (settings_of_lookup _ _ _ Hs).
    eexists. split; [reflexivity|]. cbn. now rewrite lookup_insert_eq.
  - unfold run. rewrite getNextQuoteNumber_ok.
    cbn [db]. rewrite (settings_of_lookup _ _ _ Hs).
    eexists. split; [reflexivity|]. cbn. now rewrite lookup_insert_eq.
  - destruct (consecutive_invoice_numbers k (mkWorld st []) companyId s Hs)
      as (w' & Hrun & Hw').
    unfold run. rewrite Hrun. eexists _, _. split; [reflexivity|].
    split; [reflexivity|]. split; [now apply formatted_NoDup|].
    now rewrite Hw'.
  - destruct (consecutive_quote_numbers k (mkWorld st []) companyId s Hs)
      as (w' & Hrun & Hw').
    unfold run. rewrite Hrun. eexists _, _. split; [reflexivity|].
    split; [reflexivity|]. split; [now apply formatted_NoDup|].
    now rewrite Hw'.
Qed.

(** The sample company holds counter 7 and prefix INV: the call returns
    INV-0007 and stores 8. *)
Lemma sequence_generator_witness :
  exists st',
    run (CompanyService.getNextInvoiceNumber no_faults 1) Sample.store
    = (inr "INV-0007"%string, st')
    /\ ICompanySettings.next_invoice_number <$> companySettings st' !! 1%N = Some 8.
Proof.
  destruct (sequence_generator_spec Sample.store 1 Sample.settings 3)
    as [H _]; [reflexivity | cbn; lia | cbn; lia |].
  exact H.
Defined.

(** ** Invoice creation *)

Lemma allocate_spec {A} (rows : list (N -> A)) (w : World) :
  Prisma.allocate rows w
  = (inr (imap (fun i r => r (next_id (db w) + N.of_nat i)%N) rows),
     mkWorld (bump (N.of_nat (length rows)) (db w)) (pending w)).
Proof.
  revert w. induction rows as [|r rows IH]; intros [st p].
  - cbn. unfold ret, bump. cbn. rewrite N.add_0_r. destruct st; reflexivity.
  - cbn [Prisma.allocate]. mred. rewrite IH. mred.
    cbn [imap length]. f_equal.
    + f_equal. f_equal.
      * f_equal. cbn. lia.
      * apply imap_ext. intros i x _. cbn. f_equal. lia.
    + unfold bump. cbn [next_id companySettings invoice invoiceItem quote quoteItem].
      f_equal. f_equal. lia.
Qed.

(** The created row carries the identifier the database supplied. *)
Lemma create_data_id data u c num tot i :
  InvoiceRow.invoice_id (InvoiceService.create_data data u c num tot i) = i.
Proof. reflexivity. Qed.

(** Outcome of [createInvoice] for any failure scenario: on success the
    invoice and its items are stored and returned; on failure the error is
    the generic [InvoiceError], and the invoice is stored all the same when
    the failing step is the final re-read. *)
Lemma createInvoice_post (F : Faults) (data : ICreateInvoiceRequest.t)
    (userId companyId : N) (w : World) :
  let st := db w in
  let row := new_invoice_row data userId companyId st in
  let rows := new_item_rows (ICreateInvoiceRequest.items data) (next_id st)
                (N.succ (next_id st)) in
  match InvoiceService.createInvoice F data userId companyId w with
  | (inr inv, w') =>
      inv = IInvoice.mk row (included_items (next_id st) (invoiceItem st ++ rows))
      /\ invoice (db w') = <[next_id st := row]> (invoice st)
      /\ invoiceItem (db w') = invoiceItem st ++ rows
      /\ quote (db w') = quote st
      /\ quoteItem (db w') = quoteItem st
      /\ pending w' = pending w
  | (inl e, w') =>
      e = InvoiceError "Erreur lors de la création de la facture"
      /\ quote (db w') = quote st
      /\ quoteItem (db w') = quoteItem st
      /\ pending w' = pending w
      /\ (invoice (db w') = invoice st
          \/ readback_fails F = true
             /\ invoice (db w') = <[next_id st := row]> (invoice st)
             /\ invoiceItem (db w') = invoiceItem st ++ rows)
      /\ F <> no_faults
  end.
Proof.
  intros st row rows. subst st.
  unfold InvoiceService.createInvoice.
  unfold try_catch at 1. unfold bind at 1.
  pose proof (getNextInvoiceNumber_post F companyId w) as Hn.
  destruct (CompanyService.getNextInvoiceNumber F companyId w) as [[e|num] w1].
  - mred. destruct Hn as (_ & Hi & _ & Hq & Hqi & _ & Hp & HF).
    repeat split; auto. intros ->. discriminate HF.
  - destruct Hn as (-> & ->). mred.
    destruct (write_fails F) eqn:Hw; mred.
    { repeat split; auto. intros ->. discriminate Hw. }
    rewrite allocate_spec. mred. rewrite create_data_id.
    destruct (readback_fails F) eqn:Hr; mred.
    + repeat split; auto 10. intros ->. discriminate Hr.
    + rewrite lookup_insert_eq. mred. repeat split; reflexivity.
Qed.

(** Without failure [createInvoice] succeeds. *)
Lemma createInvoice_total (data : ICreateInvoiceRequest.t) (userId companyId : N)
    (w : World) :
  exists inv w',
    InvoiceService.createInvoice no_faults data userId companyId w = (inr inv, w').
Proof.
  unfold InvoiceService.createInvoice.
  unfold try_catch at 1. unfold bind at 1.
  rewrite getNextInvoiceNumber_ok by reflexivity. mred.
  rewrite allocate_spec. mred. rewrite create_data_id, lookup_insert_eq. mred. eauto.
Qed.

(** When only the final re-read fails, [createInvoice] throws after the
    invoice has been committed. *)
Lemma createInvoice_readback_fault (data : ICreateInvoiceRequest.t)
    (userId companyId : N) (w : World) :
  exists w',
    InvoiceService.createInvoice Sample.readback_fault data userId companyId w
    = (inl (InvoiceError "Erreur lors de la création de la facture"), w')
    /\ invoice (db w') !! next_id (db w)
       = Some (new_invoice_row data userId companyId (db w)).
Proof.
  unfold InvoiceService.createInvoice.
  unfold try_catch at 1. unfold bind at 1.
  rewrite getNextInvoiceNumber_ok by reflexivity. unfold Sample.readback_fault. mred.
  rewrite allocate_spec. mred. rewrite create_data_id.
  eexists. split; [reflexivity|]. mred. apply lookup_insert_eq.
Qed.

(** ** Quote to invoice conversion *)

(** A conversion that returns went through both guards. *)
Lemma convertToInvoice_inr_inv (F FI : Faults) (now_date now_ms : Z) (quoteId : N)
    (c : IQuoteConversion.t) (st st' : Store) (r : QuoteRow.t * IInvoice.t) :
  run (QuoteService.convertToInvoice F FI now_date now_ms quoteId c) st = (inr r, st') ->
  exists q,
    quote st !! quoteId = Some q
    /\ lookup_fails F = false
    /\ QuoteRow.status q = "accepted"%string
    /\ QuoteRow.converted_to_invoice q = false.
Proof.
  unfold run, QuoteService.convertToInvoice. mred.
  destruct (lookup_fails F); mred; [discriminate|].
  destruct (quote st !! quoteId) as [q|]; mred; [|discriminate].
  destruct (String.eqb_spec (QuoteRow.status q) "accepted") as [Hs|Hs]; mred;
    [|discriminate].
  destruct (QuoteRow.converted_to_invoice q) eqn:Hc; mred; [discriminate|].
  intros _. exists q. auto.
Qed.

(** The conversion of a stored quote that is accepted, not converted, and
    that the conversion can read. *)
Section AcceptedQuote.

Variables (F : Faults) (now_date now_ms : Z) (quoteId : N).
Variables (c : IQuoteConversion.t) (st : Store) (q : QuoteRow.t).

Hypothesis stored : quote st !! quoteId = Some q.
Hypothesis readable : lookup_fails F = false.
Hypothesis accepted : QuoteRow.status q = "accepted"%string.
Hypothesis unconverted : QuoteRow.converted_to_invoice q = false.

(** The conversion reaches the transaction, which starts with the nested
    [createInvoice]. *)
Lemma convertToInvoice_reaches_creation (FI : Faults) :
  run (QuoteService.convertToInvoice F FI now_date now_ms quoteId c) st
  = run
      (try_catch
         (result <- transaction
            (invoice <- InvoiceService.createInvoice FI
                          (QuoteService.invoiceData (read_quote st quoteId q) c
                             now_date now_ms)
                          (QuoteRow.user_id q) (QuoteRow.company_id q) ;;
             updatedQuote <- Prisma.tx_quote_update (write_fails F) quoteId
               (QuoteService.converted_data (IInvoice.invoice_id invoice)) ;;
             ret (updatedQuote, invoice)) ;;
          ret result)
         (fun error =>
            match error with
            | NotFoundError _ _ | QuoteStatusError _ _ => throw error
            | _ => throw (QuoteError "Erreur lors de la conversion en facture")
            end))%M
      st.
Proof.
  unfold run, QuoteService.convertToInvoice. rewrite readable. mred.
  rewrite stored. mred. rewrite accepted, unconverted.
  cbn [String.eqb Ascii.eqb Bool.eqb negb]. mred.
  reflexivity.
Qed.

(** Outcome of the conversion, for any failure scenario. *)
Lemma convertToInvoice_post (FI : Faults) :
  let data := QuoteService.invoiceData (read_quote st quoteId q) c now_date now_ms in
  let row := new_invoice_row data (QuoteRow.user_id q) (QuoteRow.company_id q) st in
  let rows := new_item_rows (ICreateInvoiceRequest.items data) (next_id st)
                (N.succ (next_id st)) in
  match run (QuoteService.convertToInvoice F FI now_date now_ms quoteId c) st with
  | (inr (q', inv), st') =>
      q' = QuoteService.converted_data (next_id st) q
      /\ inv = IInvoice.mk row (included_items (next_id st) (invoiceItem st ++ rows))
      /\ quote st' = <[quoteId := q']> (quote st)
      /\ invoice st' = <[next_id st := row]> (invoice st)
      /\ invoiceItem st' = invoiceItem st ++ rows
      /\ quoteItem st' = quoteItem st
  | (inl e, st') =>
      e = QuoteError "Erreur lors de la conversion en facture"
      /\ quote st' = quote st
      /\ quoteItem st' = quoteItem st
      /\ (write_fails F = true \/ FI <> no_faults)
  end.
Proof.
  intros data row rows.
  rewrite convertToInvoice_reaches_creation. fold data. unfold run. mred.
  pose proof (createInvoice_post FI data (QuoteRow.user_id q) (QuoteRow.company_id q)
                (mkWorld st [])) as Hci.
  destruct (InvoiceService.createInvoice FI data (QuoteRow.user_id q)
              (QuoteRow.company_id q) (mkWorld st [])) as [[e|inv] w1].
  - mred. cbn [db pending] in Hci.
    destruct Hci as (-> & Hq1 & Hqi1 & _ & _ & HFI). mred. auto.
  - cbn [db pending] in Hci. destruct Hci as (-> & Hi & Hit & Hq1 & Hqi1 & Hp).
    mred. destruct (write_fails F); mred; [auto 10|].
    rewrite Hp. mred. rewrite Hq1, stored. mred. rewrite Hp. mred.
    rewrite Hq1. auto 10.
Qed.

(** Whatever fails in the conversion, the quote and its items are left as
    they were. *)
Lemma convertToInvoice_failure_keeps_quote (FI : Faults) (st' : Store) (e : Error) :
  run (QuoteService.convertToInvoice F FI now_date now_ms quoteId c) st = (inl e, st') ->
  quote st' = quote st /\ quoteItem st' = quoteItem st.
Proof.
  intros Hrun. pose proof (convertToInvoice_post FI) as H.
  cbv zeta in H. rewrite Hrun in H. tauto.
Qed.

(** When the re-read that ends [createInvoice] fails, the conversion fails
    and the new invoice stays in the database. *)
Lemma convertToInvoice_readback_fault :
  exists st',
    run (QuoteService.convertToInvoice F Sample.readback_fault now_date now_ms quoteId c) st
    = (inl (QuoteError "Erreur lors de la conversion en facture"), st')
    /\ quote st' = quote st
    /\ is_Some (invoice st' !! next_id st).
Proof.
  rewrite convertToInvoice_reaches_creation. unfold run. mred.
  match goal with |- context [InvoiceService.createInvoice ?f ?d ?u ?k ?w] =>
    destruct (createInvoice_readback_fault d u k w) as (w' & Hrun & Hinv);
    pose proof (createInvoice_post f d u k w) as Hpost
  end.
  cbv zeta in Hpost. rewrite Hrun in Hpost. rewrite Hrun. mred.
  destruct Hpost as (_ & Hq' & _).
  eexists. split; [reflexivity|]. split; [exact Hq'|].
  cbn [db] in Hinv. rewrite Hinv. eauto.
Qed.

End AcceptedQuote.

(** C2 (failing scenario): the accepted quote 10 of the sample store is
    converted while the re-read that ends the nested [createInvoice] fails.
    The conversion fails and the quote is untouched, yet invoice 100, absent
    before, is now stored with its two items, and number 7 is consumed. *)
Lemma convertToInvoice_late_failure_leaves_invoice :
  fst (run (QuoteService.convertToInvoice no_faults Sample.readback_fault
              5000 5000 10 Sample.conversion) Sample.store)
  = inl (QuoteError "Erreur lors de la conversion en facture")
  /\ quote (snd (run (QuoteService.convertToInvoice no_faults Sample.readback_fault
                        5000 5000 10 Sample.conversion) Sample.store)) !! 10%N
     = Some Sample.accepted_quote
  /\ invoice Sample.store !! 100%N = None
  /\ InvoiceRow.invoice_number
     <$> invoice (snd (run (QuoteService.convertToInvoice no_faults
                              Sample.readback_fault 5000 5000 10 Sample.conversion)
                         Sample.store)) !! 100%N
     = Some "INV-0007"%string
  /\ length (invoiceItem
               (snd (run (QuoteService.convertToInvoice no_faults
                            Sample.readback_fault 5000 5000 10 Sample.conversion)
                       Sample.store)))
     = 4%nat
  /\ ICompanySettings.next_invoice_number
     <$> companySettings
           (snd (run (QuoteService.convertToInvoice no_faults
                        Sample.readback_fault 5000 5000 10 Sample.conversion)
                   Sample.store)) !! 1%N
     = Some 8.
Proof. repeat split; vm_compute; reflexivity. Qed.

(** The mirror case: [createInvoice] succeeds and the update of the quote
    through [tx] fails.  The invoice, committed by its own transaction, is
    not rolled back with the outer one. *)
Example convertToInvoice_quote_update_failure :
  fst (run (QuoteService.convertToInvoice (mkFaults false false false true false)
              no_faults 5000 5000 10 Sample.conversion) Sample.store)
  = inl (QuoteError "Erreur lors de la conversion en facture")
  /\ quote (snd (run (QuoteService.convertToInvoice
                        (mkFaults false false false true false) no_faults
                        5000 5000 10 Sample.conversion) Sample.store)) !! 10%N
     = Some Sample.accepted_quote
  /\ InvoiceRow.invoice_number
     <$> invoice (snd (run (QuoteService.convertToInvoice
                              (mkFaults false false false true false) no_faults
                              5000 5000 10 Sample.conversion) Sample.store)) !! 100%N
     = Some "INV-0007"%string.
Proof. repeat split; vm_compute; reflexivity. Qed.

(** C3 (as stated): the company of the sample store has default payment
    terms of 45 days; a conversion without due date and payment terms at
    instant 5000 yields an invoice due 30 days later, not 45. *)
Lemma due_date_ignores_company_terms : ~ due_date_uses_company_terms.
Proof.
  intros H.
  specialize (H Sample.store 10%N Sample.accepted_quote Sample.settings
                Sample.conversion 5000 5000).
  destruct (run (QuoteService.convertToInvoice no_faults no_faults 5000 5000 10
                   Sample.conversion) Sample.store) as [[e|[q' inv]] st'] eqn:E;
    [vm_compute in E; discriminate E|].
  specialize (H q' inv st' eq_refl eq_refl eq_refl eq_refl eq_refl).
  vm_compute in E. injection E as _ <- _.
  vm_compute in H. discriminate H.
Qed.

(** C3 (amended): when a conversion succeeds and [due_date] is absent, the
    invoice is due [payment_terms] days after the instant read by
    [Date.now()] if [payment_terms] is present and not 0, and 30 days after
    it otherwise; the settings of the company play no part. *)
Theorem conversion_due_date (F FI : Faults) (now_date now_ms : Z) (quoteId : N)
    (c : IQuoteConversion.t) (st st' : Store) (q' : QuoteRow.t) (inv : IInvoice.t) :
  IQuoteConversion.due_date c = None ->
  run (QuoteService.convertToInvoice F FI now_date now_ms quoteId c) st
  = (inr (q', inv), st') ->
  InvoiceRow.due_date (IInvoice.row inv)
  = now_ms
    + match IQuoteConversion.payment_terms c with
      | Some days => if days =? 0 then 30 else days
      | None => 30
      end * 86400000
  /\ invoice st' !! IInvoice.invoice_id inv = Some (IInvoice.row inv).
Proof.
  intros Hd Hrun.
  destruct (convertToInvoice_inr_inv _ _ _ _ _ _ _ _ _ Hrun) as (q & Hq & HF & Hs & Hc).
  pose proof (convertToInvoice_post F now_date now_ms quoteId c st q Hq HF Hs Hc FI) as H.
  cbv zeta in H. rewrite Hrun in H. destruct H as (_ & -> & _ & Hi & _).
  split.
  - cbn. rewrite Hd. unfold JS.or_obj, JS.or_int. lia.
  - rewrite Hi. cbn. apply lookup_insert_eq.
Qed.

(** Quote 10 of the sample store, converted at instant 5000 without due
    date and payment terms, is due 30 days later. *)
Lemma conversion_due_date_witness :
  exists q' inv st',
    run (QuoteService.convertToInvoice no_faults no_faults 5000 5000 10
           Sample.conversion) Sample.store = (inr (q', inv), st')
    /\ InvoiceRow.due_date (IInvoice.row inv) = 5000 + 30 * 86400000.
Proof.
  destruct (run (QuoteService.convertToInvoice no_faults no_faults 5000 5000 10
                   Sample.conversion) Sample.store) as [[e|[q' inv]] st'] eqn:E;
    [vm_compute in E; discriminate E|].
  exists q', inv, st'. split; [reflexivity|].
  exact (proj1 (conversion_due_date no_faults no_faults 5000 5000 10
                  Sample.conversion Sample.store st' q' inv eq_refl E)).
Defined.



(** ** Acceptance of a quote *)



(** ** Update of an invoice *)

Lemma new_item_rows_In (l : list Item.t) (invoiceId first : N) (r : IInvoiceItem.t) :
  In r (new_item_rows l invoiceId first) ->
  IInvoiceItem.invoice_id r = invoiceId /\ (first <= IInvoiceItem.item_id r)%N.
Proof.
  unfold new_item_rows. intros H.
  apply list_elem_of_In, list_elem_of_lookup in H as [i Hi].
  rewrite !list_lookup_imap in Hi.
  destruct (Calculated.items (InvoiceService.calculateInvoiceTotals l) !! i) as [c|];
    [|discriminate].
  cbn in Hi. injection Hi as <-. cbn. split; [reflexivity|lia].
Qed.

(** A filter that every element passes keeps the list. *)
Lemma filter_true {A} (p : A -> bool) (l : list A) :
  (forall x, In x l -> p x = true) -> List.filter p l = l.
Proof.
  induction l as [|x l IH]; cbn; [reflexivity|]. intros H.
  rewrite (H x) by auto. f_equal. apply IH. auto.
Qed.

(** A filter that no element passes empties the list. *)
Lemma filter_false {A} (p : A -> bool) (l : list A) :
  (forall x, In x l -> p x = false) -> List.filter p l = [].
Proof.
  induction l as [|x l IH]; cbn; [reflexivity|]. intros H.
  rewrite (H x) by auto. apply IH. auto.
Qed.



(** The calculator returns one item per input item. *)
Lemma calculated_items_length (l : list Item.t) :
  length (Calculated.items (InvoiceService.calculateInvoiceTotals l)) = length l.
Proof.
  unfold InvoiceService.calculateInvoiceTotals. cbn [Calculated.items].
  apply List.length_map.
Qed.







(** ** Further properties of the calculator *)

Lemma or_value_truthy (o : option JS.value) (d : JS.value) :
  JS.ToBoolean d = true -> JS.ToBoolean (JS.or_value o d) = true.
Proof.
  intros Hd. destruct o as [v|]; cbn; [|exact Hd].
  destruct (JS.ToBoolean v) eqn:Hv; assumption.
Qed.

(** X1: whatever the code, [getVatRateValue] answers a truthy value: a
    number it returns is never 0 and never NaN, so no code yields the
    rate 0. *)
Theorem getVatRateValue_never_zero (vatRate : string) :
  JS.ToBoolean (InvoiceService.getVatRateValue vatRate) = true
  /\ JS.ToBoolean (QuoteService.getVatRateValue vatRate) = true
  /\ (forall x, InvoiceService.getVatRateValue vatRate = JS.Num x ->
                PrimFloat.eqb x 0%float = false /\ PrimFloat.is_nan x = false)
  /\ (forall x, QuoteService.getVatRateValue vatRate = JS.Num x ->
                PrimFloat.eqb x 0%float = false /\ PrimFloat.is_nan x = false).
Proof.
  assert (H : JS.ToBoolean (InvoiceService.getVatRateValue vatRate) = true)
    by (apply or_value_truthy; reflexivity).
  assert (Hx : forall x, InvoiceService.getVatRateValue vatRate = JS.Num x ->
               PrimFloat.eqb x 0%float = false /\ PrimFloat.is_nan x = false).
  { intros x Hn. rewrite Hn in H. cbn in H. unfold JS.truthy in H.
    apply negb_true_iff, orb_false_iff in H. exact H. }
  repeat split; try exact H; apply Hx; assumption.
Qed.

(** The code ZERO is answered with 20. *)
Lemma getVatRateValue_never_zero_witness :
  InvoiceService.getVatRateValue "ZERO" = JS.Num 20%float
  /\ PrimFloat.eqb 20%float 0%float = false.
Proof.
  split; [reflexivity|].
  destruct (getVatRateValue_never_zero "ZERO") as (_ & _ & H & _).
  exact (proj1 (H 20%float eq_refl)).
Defined.

(** ** Further properties of the sequence generator *)





(** X3: for a company without settings the generators insert the default
    settings and issue number 1: invoices get [INV-0001], quotes
    [QUO-0001], and the counter issued from is left at 2, the other at 1. *)
Theorem generator_creates_default_settings (st : Store) (companyId : N) :
  companySettings st !! companyId = None ->
  run (CompanyService.getNextInvoiceNumber no_faults companyId) st
  = (inr "INV-0001"%string,
     Prisma.set_companySettings
       (<[companyId := ICompanySettings.mk companyId "INV" "QUO" 2 1 30]>
          (companySettings st)) st)
  /\ run (CompanyService.getNextQuoteNumber no_faults companyId) st
     = (inr "QUO-0001"%string,
        Prisma.set_companySettings
          (<[companyId := ICompanySettings.mk companyId "INV" "QUO" 1 2 30]>
             (companySettings st)) st).
Proof.
  intros Hs. split; unfold run.
  - rewrite getNextInvoiceNumber_ok by reflexivity.
    unfold settings_of. cbn [db]. rewrite Hs. reflexivity.
  - rewrite getNextQuoteNumber_ok.
    unfold settings_of. cbn [db]. rewrite Hs. reflexivity.
Qed.

Lemma generator_creates_default_settings_witness :
  fst (run (CompanyService.getNextInvoiceNumber no_faults 2) Sample.store)
  = inr "INV-0001"%string.
Proof.
  rewrite (proj1 (generator_creates_default_settings Sample.store 2 eq_refl)).
  reflexivity.
Defined.

(** X4: issuing an invoice number changes nothing but the invoice counter
    of the company: its prefixes, quote counter and payment terms, the
    settings of every other company, and the invoices, quotes, items and
    identifier generator are as before. *)
Theorem invoice_number_frame (F : Faults) (companyId : N) (st st' : Store)
    (num : string) :
  run (CompanyService.getNextInvoiceNumber F companyId) st = (inr num, st') ->
  (forall other, other <> companyId ->
                 companySettings st' !! other = companySettings st !! other)
  /\ (exists s',
         companySettings st' !! companyId = Some s'
         /\ ICompanySettings.invoice_prefix s'
            = ICompanySettings.invoice_prefix (settings_of st companyId)
         /\ ICompanySettings.quote_prefix s'
            = ICompanySettings.quote_prefix (settings_of st companyId)
         /\ ICompanySettings.next_quote_number s'
            = ICompanySettings.next_quote_number (settings_of st companyId)
         /\ ICompanySettings.default_payment_terms s'
            = ICompanySettings.default_payment_terms (settings_of st companyId)
         /\ ICompanySettings.next_invoice_number s'
            = ICompanySettings.next_invoice_number (settings_of st companyId) + 1)
  /\ invoice st' = invoice st
  /\ invoiceItem st' = invoiceItem st
  /\ quote st' = quote st
  /\ quoteItem st' = quoteItem st
  /\ next_id st' = next_id st.
Proof.
  unfold run. intros H.
  pose proof (getNextInvoiceNumber_post F companyId (mkWorld st [])) as P.
  destruct (CompanyService.getNextInvoiceNumber F companyId (mkWorld st []))
    as [r w'] eqn:E. injection H as -> <-.
  cbv zeta in P. cbn [db pending] in P. destruct P as [_ ->]. cbn.
  split; [|split].
  - intros other Ho. now rewrite lookup_insert_ne.
  - eexists. rewrite lookup_insert_eq. split; [reflexivity|]. cbn. auto 10.
  - auto.
Qed.

Lemma invoice_number_frame_witness :
  exists st',
    run (CompanyService.getNextInvoiceNumber no_faults 1) Sample.store
    = (inr "INV-0007"%string, st')
    /\ quote st' = quote Sample.store.
Proof.
  destruct (run (CompanyService.getNextInvoiceNumber no_faults 1) Sample.store)
    as [[e|num] st'] eqn:E; [vm_compute in E; discriminate E|].
  pose proof (invoice_number_frame no_faults 1 Sample.store st' num E)
    as (_ & _ & _ & _ & Hq & _).
  exists st'. split; [|exact Hq].
  vm_compute in E. injection E as <- _. reflexivity.
Defined.

Lemma set_counters_commute (a b : Z) (s : ICompanySettings.t) :
  CompanyService.set_next_quote_number b (CompanyService.set_next_invoice_number a s)
  = CompanyService.set_next_invoice_number a (CompanyService.set_next_quote_number b s).
Proof. reflexivity. Qed.

(** X5: the two generators do not interfere: drawing an invoice number and
    then a quote number gives the same two numbers and the same database
    as drawing them in the other order. *)
Theorem generators_commute (companyId : N) (st : Store) :
  run (i <- CompanyService.getNextInvoiceNumber no_faults companyId ;;
       q <- CompanyService.getNextQuoteNumber no_faults companyId ;;
       ret (i, q)) st
  = run (q <- CompanyService.getNextQuoteNumber no_faults companyId ;;
         i <- CompanyService.getNextInvoiceNumber no_faults companyId ;;
         ret (i, q)) st.
Proof.
  unfold run, bind.
  repeat (first [rewrite getNextInvoiceNumber_ok by reflexivity
                | rewrite getNextQuoteNumber_ok];
          cbv beta iota zeta).
  unfold ret, settings_of. cbn [db pending companySettings Prisma.set_companySettings].
  rewrite !lookup_insert_eq, !insert_insert_eq.
  destruct (companySettings st !! companyId) as [s|]; reflexivity.
Qed.

(** ** Further properties of the reads and of invoice creation *)



(** X7: when the write transaction of [createInvoice] fails after the
    number has been drawn, no invoice and no item is stored, yet the
    counter of the company has advanced: the number is lost. *)
Theorem createInvoice_failed_write_loses_number (F : Faults)
    (data : ICreateInvoiceRequest.t) (userId companyId : N) (st : Store) :
  settings_read_fails F = false ->
  settings_write_fails F = false ->
  write_fails F = true ->
  exists st',
    run (InvoiceService.createInvoice F data userId companyId) st
    = (inl (InvoiceError "Erreur lors de la création de la facture"), st')
    /\ invoice st' = invoice st
    /\ invoiceItem st' = invoiceItem st
    /\ ICompanySettings.next_invoice_number <$> companySettings st' !! companyId
       = Some (ICompanySettings.next_invoice_number (settings_of st companyId) + 1).
Proof.
  intros Hr Hw Ht.
  unfold run, InvoiceService.createInvoice.
  unfold try_catch at 1. unfold bind at 1.
  rewrite getNextInvoiceNumber_ok by assumption. rewrite Ht. mred.
  eexists. split; [reflexivity|]. cbn. rewrite lookup_insert_eq. auto.
Qed.

Lemma createInvoice_failed_write_witness :
  exists st',
    run (InvoiceService.createInvoice (mkFaults false false false true false)
           (QuoteService.invoiceData
              (read_quote Sample.store 10 Sample.accepted_quote)
              Sample.conversion 5000 5000) 2 1) Sample.store
    = (inl (InvoiceError "Erreur lors de la création de la facture"), st')
    /\ invoice st' = invoice Sample.store
    /\ ICompanySettings.next_invoice_number <$> companySettings st' !! 1%N = Some 8.
Proof.
  destruct (createInvoice_failed_write_loses_number
              (mkFaults false false false true false)
              (QuoteService.invoiceData
                 (read_quote Sample.store 10 Sample.accepted_quote)
                 Sample.conversion 5000 5000) 2 1 Sample.store
              eq_refl eq_refl eq_refl) as (st' & H1 & H2 & _ & H4).
  exists st'. auto.
Defined.

(** An ordering leaves alone a list whose keys count up from [k]. *)
Lemma orderBy_counting {A} (key : A -> Z) (l : list A) :
  forall k : nat,
    (forall i x, l !! i = Some x -> key x = Z.of_nat (k + i)) ->
    orderBy key l = l.
Proof.
  induction l as [|x l IH]; intros k Hk; [reflexivity|].
  cbn [orderBy fold_right]. fold (orderBy key l).
  rewrite (IH (S k)).
  - destruct l as [|y l']; [reflexivity|]. cbn [insert_by].
    rewrite (Hk 0%nat x eq_refl), (Hk 1%nat y eq_refl).
    destruct (Z.leb_spec (Z.of_nat (k + 0)) (Z.of_nat (k + 1))); [reflexivity|lia].
  - intros i y Hy. rewrite (Hk (S i) y Hy). f_equal. lia.
Qed.

Lemma new_item_rows_lookup (l : list Item.t) (invoiceId first : N) (i : nat)
    (r : IInvoiceItem.t) :
  new_item_rows l invoiceId first !! i = Some r ->
  exists item,
    l !! i = Some item
    /\ IInvoiceItem.item_id r = (first + N.of_nat i)%N
    /\ IInvoiceItem.invoice_id r = invoiceId
    /\ IInvoiceItem.quantity r = Item.quantity item
    /\ IInvoiceItem.unit_price_excluding_tax r = Item.unit_price_excluding_tax item
    /\ IInvoiceItem.vat_rate r = Item.vat_rate item
    /\ IInvoiceItem.sort_order r = JS.or_int (Item.sort_order item) (Z.of_nat i).
Proof.
  unfold new_item_rows. rewrite !list_lookup_imap.
  unfold InvoiceService.calculateInvoiceTotals. cbn [Calculated.items].
  rewrite lookup_map.
  destruct (l !! i) as [item|]; [|discriminate].
  cbn. intros [= <-]. exists item. cbn. auto 10.
Qed.

(** X8: creation followed by reading.  When no step fails, no stored item
    already refers to the identifier the invoice receives, and no item of
    the request carries a sort order (or carries 0), [createInvoice]
    returns the invoice with exactly one row per item of the request, in
    the order of the request, numbered 0, 1, ... and carrying the
    quantities of the request; reading the invoice again returns the
    same. *)
Theorem createInvoice_read_back (data : ICreateInvoiceRequest.t)
    (userId companyId : N) (st : Store) :
  (forall r, In r (invoiceItem st) -> IInvoiceItem.invoice_id r <> next_id st) ->
  (forall item, In item (ICreateInvoiceRequest.items data) ->
                Item.sort_order item = None \/ Item.sort_order item = Some 0) ->
  exists inv st',
    run (InvoiceService.createInvoice no_faults data userId companyId) st
    = (inr inv, st')
    /\ IInvoice.invoice_id inv = next_id st
    /\ IInvoice.items inv
       = new_item_rows (ICreateInvoiceRequest.items data) (next_id st)
           (N.succ (next_id st))
    /\ invoiceItem st' = invoiceItem st ++ IInvoice.items inv
    /\ map IInvoiceItem.quantity (IInvoice.items inv)
       = map Item.quantity (ICreateInvoiceRequest.items data)
    /\ map IInvoiceItem.sort_order (IInvoice.items inv)
       = map Z.of_nat (seq 0 (length (ICreateInvoiceRequest.items data)))
    /\ run (InvoiceService.getInvoiceById false (IInvoice.invoice_id inv)) st'
       = (inr inv, st').
Proof.
  intros Hfresh Hsort.
  pose proof (new_item_rows_lookup (ICreateInvoiceRequest.items data) (next_id st)
                (N.succ (next_id st))) as Hlook.
  pose proof (new_item_rows_In (ICreateInvoiceRequest.items data) (next_id st)
                (N.succ (next_id st))) as HIn.
  assert (Hlen : length (new_item_rows (ICreateInvoiceRequest.items data) (next_id st)
                (N.succ (next_id st))) = length (ICreateInvoiceRequest.items data)).
  { unfold new_item_rows. now rewrite !length_imap, calculated_items_length. }
  remember (new_item_rows (ICreateInvoiceRequest.items data) (next_id st)
                 (N.succ (next_id st))) as rows eqn:Erows.
  assert (Hincl : included_items (next_id st) (invoiceItem st ++ rows) = rows).
  { unfold included_items. rewrite List.filter_app, filter_false, filter_true.
    - cbn [app]. apply (orderBy_counting _ _ 0).
      intros i r Hr. apply Hlook in Hr
        as (item & Hi & _ & _ & _ & _ & _ & ->).
      assert (Hin : In item (ICreateInvoiceRequest.items data)).
      { apply list_elem_of_In, list_elem_of_lookup. eauto. }
      destruct (Hsort item Hin) as [-> | ->]; reflexivity.
    - intros r Hr. apply N.eqb_eq. now apply HIn in Hr.
    - intros r Hr. apply N.eqb_neq. auto. }
  destruct (createInvoice_total data userId companyId (mkWorld st []))
    as (inv & w' & Hrun).
  pose proof (createInvoice_post no_faults data userId companyId (mkWorld st []))
    as P. cbv zeta in P. rewrite Hrun in P. cbn [db pending] in P.
  rewrite <- Erows in P. rewrite Hincl in P.
  destruct P as (-> & Hi & Hit & _ & _ & _).
  exists (IInvoice.mk (new_invoice_row data userId companyId st) rows), (db w').
  unfold run. rewrite Hrun. split; [reflexivity|].
  split; [reflexivity|]. split; [reflexivity|]. split; [exact Hit|].
  cbn [IInvoice.items]. split; [|split].
  - apply list_eq. intros i. rewrite !list_lookup_fmap.
    destruct (rows !! i) as [r|] eqn:Hr.
    + apply Hlook in Hr as (item & Hi' & _ & _ & Hq & _).
      rewrite Hi'. cbn. now rewrite Hq.
    + apply lookup_ge_None in Hr. rewrite Hlen in Hr.
      rewrite (proj2 (lookup_ge_None _ _) Hr). reflexivity.
  - apply list_eq. intros i. rewrite !list_lookup_fmap.
    destruct (rows !! i) as [r|] eqn:Hr.
    + pose proof Hr as Hr'.
      apply Hlook in Hr as (item & Hi' & _ & _ & _ & _ & _ & Hs).
      assert (Hin : In item (ICreateInvoiceRequest.items data)).
      { apply list_elem_of_In, list_elem_of_lookup. eauto. }
      apply lookup_lt_Some in Hi'.
      rewrite lookup_seq_lt by assumption. cbn. f_equal. rewrite Hs.
      destruct (Hsort item Hin) as [-> | ->]; reflexivity.
    + apply lookup_ge_None in Hr. rewrite Hlen in Hr.
      rewrite lookup_seq_ge by assumption. reflexivity.
  - change (IInvoice.invoice_id _) with (next_id st).
    mred. rewrite Hi, lookup_insert_eq. mred. rewrite Hit.
    unfold included_items in Hincl. rewrite Hincl. destruct w'; reflexivity.
Qed.

Lemma createInvoice_read_back_witness :
  exists inv st',
    run (InvoiceService.createInvoice no_faults Request.two_items 2 1) Sample.store
    = (inr inv, st')
    /\ map IInvoiceItem.sort_order (IInvoice.items inv) = [0; 1]
    /\ map IInvoiceItem.item_id (IInvoice.items inv) = [101%N; 102%N]
    /\ run (InvoiceService.getInvoiceById false (IInvoice.invoice_id inv)) st'
       = (inr inv, st').
Proof.
  destruct (createInvoice_read_back Request.two_items 2 1 Sample.store)
    as (inv & st' & Hrun & _ & Hit & _ & _ & Hs & Hread).
  - intros r [<-|[<-|[]]]; cbn; lia.
  - intros item [<-|[<-|[]]]; left; reflexivity.
  - exists inv, st'. split; [exact Hrun|]. split; [exact Hs|].
    split; [rewrite Hit; reflexivity|exact Hread].
Defined.

(** ** Further properties of the update of an invoice *)


(** X9: an update is all or nothing, except for its final re-read.  When
    [updateInvoice] fails, whatever the failure, either the database is
    exactly as before, or the only step that failed is the re-read that
    follows the commit: the patch is then stored exactly as by a successful
    call, and the caller receives [InvoiceError]. *)
Theorem updateInvoice_all_or_nothing (F : Faults) (invoiceId : N)
    (data : IUpdateInvoiceRequest.t) (st st' : Store) (e : Error) :
  run (InvoiceService.updateInvoice F invoiceId data) st = (inl e, st') ->
  st' = st
  \/ (readback_fails F = true
      /\ lookup_fails F = false
      /\ write_fails F = false
      /\ e = InvoiceError "Erreur lors de la mise à jour de la facture"
      /\ exists inv,
           run (InvoiceService.updateInvoice no_faults invoiceId data) st
           = (inr inv, st')).
Proof.
  unfold run, InvoiceService.updateInvoice. mred.
  destruct (lookup_fails F); mred; [intros [= _ <-]; auto|].
  destruct (invoice st !! invoiceId) as [row|] eqn:Hi; mred;
    [|intros [= _ <-]; auto].
  destruct (String.eqb (InvoiceRow.status row) "paid"
            && (bool_decide (is_Some (IUpdateInvoiceRequest.items data))
                || JS.truthy_opt (IUpdateInvoiceRequest.amount_excluding_tax data)));
    mred; [intros [= _ <-]; auto|].
  destruct (String.eqb (InvoiceRow.status row) "cancelled"); mred;
    [intros [= _ <-]; auto|].
  destruct (write_fails F); mred; [intros [= _ <-]; auto|].
  rewrite Hi. mred.
  destruct (IUpdateInvoiceRequest.items data) as [l|]; cbn [option_map]; mred.
  - rewrite !allocate_spec. mred.
    destruct (readback_fails F); mred.
    + intros [= <- <-]. right. rewrite lookup_insert_eq. mred. eauto 10.
    + rewrite lookup_insert_eq. mred. discriminate.
  - destruct (readback_fails F); mred.
    + intros [= <- <-]. right. rewrite lookup_insert_eq. mred. eauto 10.
    + rewrite lookup_insert_eq. mred. discriminate.
Qed.

Lemma updateInvoice_all_or_nothing_witness :
  exists e st',
    run (InvoiceService.updateInvoice Sample.readback_fault 20 Sample.items_patch)
      Sample.store = (inl e, st')
    /\ (st' = Sample.store
        \/ (readback_fails Sample.readback_fault = true
            /\ lookup_fails Sample.readback_fault = false
            /\ write_fails Sample.readback_fault = false
            /\ e = InvoiceError "Erreur lors de la mise à jour de la facture"
            /\ exists inv,
                 run (InvoiceService.updateInvoice no_faults 20 Sample.items_patch)
                   Sample.store = (inr inv, st'))).
Proof.
  destruct (run (InvoiceService.updateInvoice Sample.readback_fault 20
                   Sample.items_patch) Sample.store) as [[e|inv] st'] eqn:E;
    [|vm_compute in E; discriminate E].
  exists e, st'. split; [reflexivity|].
  exact (updateInvoice_all_or_nothing Sample.readback_fault 20 Sample.items_patch
           Sample.store st' e E).
Defined.








(** ** Further properties of the quote lifecycle *)










(** ** Deletion of a quote *)






(** ** Rates of the quote statistics *)

Lemma getConversionRate_without_accepted (companyId : N) (st : Store) :
  (forall id q, quote st !! id = Some q -> QuoteRow.company_id q = companyId ->
                QuoteRow.status q <> "accepted"%string) ->
  run (QuoteStatistics.getConversionRate false companyId) st = (inr 0%float, st).
Proof.
  intros H. unfold run, QuoteStatistics.getConversionRate, QuoteStatistics.quote_count.
  mred.
  rewrite (filter_false
             (fun q => N.eqb (QuoteRow.company_id q) companyId
                       && String.eqb (QuoteRow.status q) "accepted"));
    [reflexivity|].
  intros q Hq. apply in_map_iff in Hq as ([id q0] & <- & Hin).
  apply list_elem_of_In, elem_of_map_to_list in Hin. cbn [snd].
  destruct (N.eqb_spec (QuoteRow.company_id q0) companyId) as [Hc|Hc];
    [|reflexivity].
  destruct (String.eqb_spec (QuoteRow.status q0) "accepted") as [Hs|Hs];
    [|reflexivity].
  exfalso. exact (H id q0 Hin Hc Hs).
Qed.

(** X18: the conversion rate compares the quotes flagged as converted with
    the quotes whose status is accepted at the time of the question, and a
    conversion takes the quote out of the second group.  Hence, right after
    the conversion of a quote that was the only accepted quote of its
    company, [getConversionRate] answers 0 for that company. *)
Theorem conversion_rate_after_last_conversion (F FI : Faults) (now_date now_ms : Z)
    (quoteId : N) (c : IQuoteConversion.t) (st st1 : Store) (q' : QuoteRow.t)
    (inv : IInvoice.t) :
  run (QuoteService.convertToInvoice F FI now_date now_ms quoteId c) st
  = (inr (q', inv), st1) ->
  (forall other q0, other <> quoteId -> quote st !! other = Some q0 ->
                    QuoteRow.company_id q0 = QuoteRow.company_id q' ->
                    QuoteRow.status q0 <> "accepted"%string) ->
  QuoteRow.converted_to_invoice q' = true
  /\ run (QuoteStatistics.getConversionRate false (QuoteRow.company_id q')) st1
     = (inr 0%float, st1).
Proof.
  intros Hrun Hothers.
  destruct (convertToInvoice_inr_inv _ _ _ _ _ _ _ _ _ Hrun) as (q & Hq & HF & Hs & Hc).
  pose proof (convertToInvoice_post F now_date now_ms quoteId c st q Hq HF Hs Hc FI) as H.
  cbv zeta in H. rewrite Hrun in H. destruct H as (-> & _ & Hq1 & _).
  split; [reflexivity|].
  apply getConversionRate_without_accepted.
  intros id q0 Hq0 Hcomp. rewrite Hq1 in Hq0.
  destruct (N.eq_dec id quoteId) as [->|Hne].
  - rewrite lookup_insert_eq in Hq0. injection Hq0 as <-. cbn. discriminate.
  - rewrite lookup_insert_ne in Hq0 by auto. eauto.
Qed.

(** Quote 10 is the only accepted quote of company 1 in the sample store;
    after its conversion one quote more is flagged as converted and the
    rate is 0. *)
Lemma conversion_rate_witness :
  exists q' inv st1,
    run (QuoteService.convertToInvoice no_faults no_faults 1500 1500 10
           Sample.conversion) Sample.store = (inr (q', inv), st1)
    /\ run (QuoteStatistics.getConversionRate false 1) st1 = (inr 0%float, st1).
Proof.
  destruct (run (QuoteService.convertToInvoice no_faults no_faults 1500 1500 10
                   Sample.conversion) Sample.store) as [[e|[q' inv]] st1] eqn:E;
    [vm_compute in E; discriminate E|].
  exists q', inv, st1. split; [reflexivity|].
  assert (Hc : QuoteRow.company_id q' = 1%N)
    by (vm_compute in E; injection E as <- _ _; reflexivity).
  rewrite <- Hc.
  apply (conversion_rate_after_last_conversion no_faults no_faults 1500 1500 10
           Sample.conversion Sample.store st1 q' inv E).
  intros other q0 Hne Hq0 _.
  unfold Sample.store in Hq0. cbn [quote] in Hq0.
  rewrite lookup_insert_ne in Hq0 by auto.
  destruct (N.eq_dec other 13%N) as [->|H13].
  - rewrite lookup_insert_eq in Hq0. injection Hq0 as <-. cbn. discriminate.
  - rewrite lookup_insert_ne in Hq0 by auto.
    destruct (N.eq_dec other 14%N) as [->|H14].
    + rewrite lookup_singleton_eq in Hq0. injection Hq0 as <-. cbn. discriminate.
    + rewrite lookup_singleton_ne in Hq0 by auto. discriminate.
Defined.

(** ** Update of the settings *)

(** X19: the generator issues what the settings say.  After
    [updateCompanySettings] has patched the settings row of a company, the
    next invoice number is built from the prefix and the counter of the
    patch, or from the stored ones where the patch is silent; nothing
    remembers the numbers issued before, so a patch that rewinds the
    counter makes the generator issue a number again. *)
Theorem settings_update_then_number (column_defaults : ICompanySettings.t)
    (companyId : N) (data : IUpdateCompanySettingsRequest.t) (st : Store)
    (s : ICompanySettings.t) :
  companySettings st !! companyId = Some s ->
  exists s' st1 st2,
    run (SettingsUpdate.updateCompanySettings no_faults column_defaults companyId data)
      st = (inr s', st1)
    /\ companySettings st1 !! companyId = Some s'
    /\ ICompanySettings.next_quote_number s'
       = JS.assign (IUpdateCompanySettingsRequest.next_quote_number data)
           (ICompanySettings.next_quote_number s)
    /\ ICompanySettings.default_payment_terms s'
       = JS.assign (IUpdateCompanySettingsRequest.default_payment_terms data)
           (ICompanySettings.default_payment_terms s)
    /\ (forall other, other <> companyId ->
                      companySettings st1 !! other = companySettings st !! other)
    /\ run (CompanyService.getNextInvoiceNumber no_faults companyId) st1
       = (inr (formatted
                 (JS.assign (IUpdateCompanySettingsRequest.invoice_prefix data)
                    (ICompanySettings.invoice_prefix s))
                 (JS.assign (IUpdateCompanySettingsRequest.next_invoice_number data)
                    (ICompanySettings.next_invoice_number s))),
          st2).
Proof.
  intros Hs.
  unfold run at 1, SettingsUpdate.updateCompanySettings,
    SettingsUpdate.companySettings_upsert. mred. rewrite Hs.
  eexists _, _, _. split; [reflexivity|].
  cbn [companySettings Prisma.set_companySettings].
  split; [apply lookup_insert_eq|]. split; [reflexivity|]. split; [reflexivity|].
  split; [intros other Ho; now apply lookup_insert_ne|].
  unfold run. rewrite getNextInvoiceNumber_ok by reflexivity.
  unfold settings_of. cbn [db companySettings Prisma.set_companySettings].
  rewrite lookup_insert_eq. reflexivity.
Qed.

(** In the sample store number INV-0007 is issued; after a patch that sets
    the counter back to 7 it is issued again. *)
Lemma settings_update_then_number_witness :
  exists st1 s' st2 st3,
    run (CompanyService.getNextInvoiceNumber no_faults 1) Sample.store
    = (inr "INV-0007"%string, st1)
    /\ run (SettingsUpdate.updateCompanySettings no_faults Sample.settings 1
              (counter_patch 7)) st1 = (inr s', st2)
    /\ run (CompanyService.getNextInvoiceNumber no_faults 1) st2
       = (inr "INV-0007"%string, st3).
Proof.
  destruct (run (CompanyService.getNextInvoiceNumber no_faults 1) Sample.store)
    as [[e|num] st1] eqn:E; [vm_compute in E; discriminate E|].
  assert (Hs : companySettings st1 !! 1%N
               = Some (ICompanySettings.mk 1 "INV" "QUO" 8 3 45))
    by (vm_compute in E; injection E as _ <-; reflexivity).
  destruct (settings_update_then_number Sample.settings 1 (counter_patch 7) st1 _ Hs)
    as (s' & st2 & st3 & Hup & _ & _ & _ & _ & Hnum).
  exists st1, s', st2, st3.
  split; [vm_compute in E; injection E as <- _; reflexivity|].
  split; [exact Hup|exact Hnum].
Defined.

(** ** The product service *)

Ltac pred1 :=
  cbv beta iota zeta delta
    [ProductService.bind ProductService.ret ProductService.throw
     ProductService.try_catch ProductService.io ProductService.get_catalog
     ProductService.put_product ProductService.product_findUnique
     ProductService.product_update ProductService.product_delete
     ProductService.invoiceItem_count ProductService.quoteItem_count
     ProductService.invalidateCache ProductService.getProductById];
  cbn [ProductService.documents ProductService.product].

Ltac pred := repeat (progress pred1).



(** What a count of rows says about the rows. *)
Lemma filter_length_pos {A} (p : A -> bool) (l : list A) :
  (0 <? length (List.filter p l))%nat = true <-> exists x, In x l /\ p x = true.
Proof.
  rewrite Nat.ltb_lt. split.
  - destruct (List.filter p l) as [|x l'] eqn:E; cbn; [lia|]. intros _.
    exists x. apply List.filter_In. rewrite E. now left.
  - intros (x & Hx & Hp).
    assert (Hin : In x (List.filter p l)) by (apply List.filter_In; auto).
    destruct (List.filter p l); [contradiction|cbn; lia].
Qed.

Lemma getProductById_found (productId : N) (c : ProductService.Catalog)
    (p : IProduct.t) :
  ProductService.product c !! productId = Some p ->
  ProductService.getProductById false productId c = (inr p, c).
Proof. intros H. pred. rewrite H. reflexivity. Qed.

Lemma getProductById_missing (productId : N) (c : ProductService.Catalog) :
  ProductService.product c !! productId = None ->
  ProductService.getProductById false productId c
  = (inl (ProductService.NotFoundError "Produit" productId), c).
Proof. intros H. pred. rewrite H. reflexivity. Qed.

(** The outcomes of [deleteProduct]. *)
Lemma deleteProduct_cases (read_fails count_fails write_fails : bool)
    (productId : N) (c c' : ProductService.Catalog)
    (r : ProductService.Error + unit) :
  ProductService.deleteProduct read_fails count_fails write_fails productId c
  = (r, c') ->
  (exists e, r = inl e /\ c' = c)
  \/ (exists p,
         ProductService.product c !! productId = Some p
         /\ r = inr tt
         /\ ((ProductService.on_document c productId
              /\ c' = ProductService.mkCatalog (ProductService.documents c)
                        (<[productId := ProductService.deactivate p]>
                           (ProductService.product c)))
             \/ (~ ProductService.on_document c productId
                 /\ c' = ProductService.mkCatalog (ProductService.documents c)
                           (delete productId (ProductService.product c))))).
Proof.
  unfold ProductService.deleteProduct. pred.
  destruct read_fails; pred; [intros [= <- <-]; eauto|].
  destruct (ProductService.product c !! productId) as [p|] eqn:Hp; pred;
    [|intros [= <- <-]; eauto].
  destruct count_fails; pred; [intros [= <- <-]; eauto|].
  pose proof (filter_length_pos
                (fun x => bool_decide (IInvoiceItem.product_id x = Some productId))
                (invoiceItem (ProductService.documents c))) as Hci.
  pose proof (filter_length_pos
                (fun x => bool_decide (IQuoteItem.product_id x = Some productId))
                (quoteItem (ProductService.documents c))) as Hcq.
  destruct (0 <? length (List.filter
                           (fun x => bool_decide
                                       (IInvoiceItem.product_id x = Some productId))
                           (invoiceItem (ProductService.documents c))))%nat eqn:Eci;
  destruct (0 <? length (List.filter
                           (fun x => bool_decide
                                       (IQuoteItem.product_id x = Some productId))
                           (quoteItem (ProductService.documents c))))%nat eqn:Ecq;
  cbn [orb]; pred;
  (destruct write_fails; pred; [intros [= <- <-]; eauto|]);
  rewrite Hp; pred; intros [= <- <-]; right; exists p;
  (split; [reflexivity|]); (split; [reflexivity|]).
  - left. split; [|reflexivity]. left.
    destruct (proj1 Hci eq_refl) as (x & Hx & Hb).
    apply bool_decide_eq_true in Hb. eauto.
  - left. split; [|reflexivity]. left.
    destruct (proj1 Hci eq_refl) as (x & Hx & Hb).
    apply bool_decide_eq_true in Hb. eauto.
  - left. split; [|reflexivity]. right.
    destruct (proj1 Hcq eq_refl) as (x & Hx & Hb).
    apply bool_decide_eq_true in Hb. eauto.
  - right. split; [|reflexivity].
    intros [(x & Hx & Hb)|(x & Hx & Hb)].
    + assert (false = true) by (apply Hci; exists x; split; [exact Hx|];
                                 now apply bool_decide_eq_true).
      discriminate.
    + assert (false = true) by (apply Hcq; exists x; split; [exact Hx|];
                                 now apply bool_decide_eq_true).
      discriminate.
Qed.

(** X20: deleting a product never leaves a document line without its
    product.  A product that a line of an invoice or of a quote names is
    only deactivated, and keeps its identifier, stock and tracking flag; a
    product on no document is removed.  Either way, if every product named
    by a line was stored before the call it is stored after it, the
    documents and the other products are untouched, and a call that fails
    changes nothing. *)
Theorem deleteProduct_keeps_references (read_fails count_fails write_fails : bool)
    (productId : N) (c c' : ProductService.Catalog)
    (r : ProductService.Error + unit) :
  ProductService.references_resolve c ->
  ProductService.deleteProduct read_fails count_fails write_fails productId c
  = (r, c') ->
  ProductService.references_resolve c'
  /\ ProductService.documents c' = ProductService.documents c
  /\ (forall other, other <> productId ->
        ProductService.product c' !! other = ProductService.product c !! other)
  /\ match r with
     | inl _ => c' = c
     | inr _ =>
         exists p,
           ProductService.product c !! productId = Some p
           /\ (ProductService.on_document c productId ->
               ProductService.product c' !! productId
               = Some (ProductService.deactivate p))
           /\ (~ ProductService.on_document c productId ->
               ProductService.product c' !! productId = None)
     end.
Proof.
  intros [Hinv Hquo] Hrun.
  apply deleteProduct_cases in Hrun
    as [(e & -> & ->)|(p & Hp & -> & [[Hused ->]|[Hunused ->]])].
  - repeat split; auto.
  - cbn [ProductService.documents ProductService.product].
    split; [|split; [reflexivity|split;
      [intros other Ho; now apply lookup_insert_ne|]]].
    + split; intros r0 p0 Hr0 Hp0;
        cbn [ProductService.documents ProductService.product] in *;
        (destruct (N.eq_dec p0 productId) as [->|Hne];
         [rewrite lookup_insert_eq; eauto
         |rewrite lookup_insert_ne by auto; eauto]).
    + exists p. split; [exact Hp|]. split;
        [intros _; apply lookup_insert_eq|intros Hn; contradiction].
  - cbn [ProductService.documents ProductService.product].
    split; [|split; [reflexivity|split;
      [intros other Ho; now apply lookup_delete_ne|]]].
    + split; intros r0 p0 Hr0 Hp0;
        cbn [ProductService.documents ProductService.product] in *;
        (destruct (N.eq_dec p0 productId) as [->|Hne];
         [exfalso; apply Hunused; unfold ProductService.on_document; eauto
         |rewrite lookup_delete_ne by auto; eauto]).
    + exists p. split; [exact Hp|]. split;
        [intros Hu; contradiction|intros _; apply lookup_delete_eq].
Qed.

Lemma inventory_references : ProductService.references_resolve Inventory.catalog.
Proof.
  split; intros r p Hr Hp; cbn in Hr.
  - destruct Hr as [<-|[<-|[<-|[]]]]; try discriminate Hp.
    injection Hp as <-. eexists. reflexivity.
  - destruct Hr as [<-|[<-|[]]]; discriminate Hp.
Qed.

(** In the sample catalog product 60 is named by a line of invoice 20 and
    product 61 by none: the first is deactivated, the second removed. *)
Lemma deleteProduct_witness :
  exists c1 c2,
    ProductService.deleteProduct false false false 60 Inventory.catalog
    = (inr tt, c1)
    /\ ProductService.product c1 !! 60%N
       = Some (ProductService.deactivate Inventory.widget)
    /\ ProductService.references_resolve c1
    /\ ProductService.deleteProduct false false false 61 Inventory.catalog
       = (inr tt, c2)
    /\ ProductService.product c2 !! 61%N = None.
Proof.
  destruct (ProductService.deleteProduct false false false 60 Inventory.catalog)
    as [[e|[]] c1] eqn:E1; [vm_compute in E1; discriminate E1|].
  destruct (ProductService.deleteProduct false false false 61 Inventory.catalog)
    as [[e|[]] c2] eqn:E2; [vm_compute in E2; discriminate E2|].
  destruct (deleteProduct_keeps_references false false false 60 Inventory.catalog
              c1 (inr tt) inventory_references E1)
    as (Hres & _ & _ & p1 & Hp1 & Hused & _).
  destruct (deleteProduct_keeps_references false false false 61 Inventory.catalog
              c2 (inr tt) inventory_references E2)
    as (_ & _ & _ & p2 & Hp2 & _ & Hunused).
  exists c1, c2. split; [reflexivity|]. split; [|split; [exact Hres|split;
    [reflexivity|]]].
  - injection Hp1 as <-. apply Hused. left. exists Inventory.widget_line.
    split; [cbn; auto|reflexivity].
  - apply Hunused. intros [(x & Hx & Hb)|(x & Hx & Hb)]; cbn in Hx.
    + destruct Hx as [<-|[<-|[<-|[]]]]; discriminate Hb.
    + destruct Hx as [<-|[<-|[]]]; discriminate Hb.
Defined.












(** ** Sending, payment and deletion of an invoice *)

















(** ** Bulk actions on invoices *)

(** The loop handles every invoice, whatever happens to it. *)
Lemma bulk_loop_accounts (cascade : bool) (env : nat -> InvoiceLifecycle.Iteration)
    (action : IBulkInvoiceAction.t) (invoice_ids : list N) :
  forall (i : nat) (results : BulkResult.t) (s : InvoiceLifecycle.Ledger),
  exists res s' extra,
    InvoiceLifecycle.bulk_loop cascade env action i invoice_ids results s
    = (inr res, s')
    /\ (BulkResult.success res + BulkResult.failed res
        = BulkResult.success results + BulkResult.failed results
          + length invoice_ids)%nat
    /\ BulkResult.errors res = BulkResult.errors results ++ extra
    /\ BulkResult.failed res = (BulkResult.failed results + length extra)%nat
    /\ sublist (map fst extra) invoice_ids.
Proof.
  induction invoice_ids as [|invoiceId rest IH]; intros i results s.
  - exists results, s, []. cbn. rewrite app_nil_r.
    repeat split; auto; try lia; constructor.
  - cbn [InvoiceLifecycle.bulk_loop].
    unfold InvoiceLifecycle.bind at 1, InvoiceLifecycle.try_catch at 1,
      InvoiceLifecycle.bind at 1.
    destruct (InvoiceLifecycle.bulk_switch cascade (env i) action invoiceId s)
      as [[e|[]] s1]; cbv beta iota; unfold InvoiceLifecycle.ret at 1.
    + destruct (IH (S i)
                  (BulkResult.mk (BulkResult.success results)
                     (S (BulkResult.failed results))
                     (BulkResult.errors results ++ [(invoiceId, e)])) s1)
        as (res & s' & extra & Hrun & Hsum & Herr & Hfail & Hsub).
      exists res, s', ((invoiceId, e) :: extra). split; [exact Hrun|].
      cbn [BulkResult.success BulkResult.failed BulkResult.errors] in *.
      split; [cbn [length]; lia|]. split; [now rewrite Herr, <- app_assoc|].
      split; [cbn [length]; lia|]. cbn [map fst]. now constructor.
    + destruct (IH (S i)
                  (BulkResult.mk (S (BulkResult.success results))
                     (BulkResult.failed results) (BulkResult.errors results)) s1)
        as (res & s' & extra & Hrun & Hsum & Herr & Hfail & Hsub).
      exists res, s', extra. split; [exact Hrun|].
      cbn [BulkResult.success BulkResult.failed BulkResult.errors] in *.
      split; [cbn [length]; lia|]. split; [exact Herr|].
      split; [exact Hfail|]. now constructor.
Qed.

(** An action that the [switch] does not know fails for every invoice and
    writes nothing. *)
Lemma bulk_loop_unsupported (cascade : bool) (env : nat -> InvoiceLifecycle.Iteration)
    (action : IBulkInvoiceAction.t) (invoice_ids : list N) :
  IBulkInvoiceAction.action action <> "send"%string ->
  IBulkInvoiceAction.action action <> "mark_paid"%string ->
  IBulkInvoiceAction.action action <> "mark_cancelled"%string ->
  IBulkInvoiceAction.action action <> "delete"%string ->
  forall (i : nat) (results : BulkResult.t) (s : InvoiceLifecycle.Ledger),
    InvoiceLifecycle.bulk_loop cascade env action i invoice_ids results s
    = (inr (BulkResult.mk (BulkResult.success results)
              (BulkResult.failed results + length invoice_ids)
              (BulkResult.errors results
               ++ map (fun invoiceId =>
                         (invoiceId,
                          BulkResult.ValidationError
                            (String.append "Action non supportée: "
                               (IBulkInvoiceAction.action action))))
                    invoice_ids)),
       s).
Proof.
  intros H1 H2 H3 H4.
  induction invoice_ids as [|invoiceId rest IH]; intros i results s.
  - cbn. rewrite app_nil_r, Nat.add_0_r. destruct results; reflexivity.
  - cbn [InvoiceLifecycle.bulk_loop].
    unfold InvoiceLifecycle.bind at 1, InvoiceLifecycle.try_catch at 1,
      InvoiceLifecycle.bind at 1, InvoiceLifecycle.bulk_switch.
    destruct (String.eqb_spec (IBulkInvoiceAction.action action) "send");
      [contradiction|].
    destruct (String.eqb_spec (IBulkInvoiceAction.action action) "mark_paid");
      [contradiction|].
    destruct (String.eqb_spec (IBulkInvoiceAction.action action) "mark_cancelled");
      [contradiction|].
    destruct (String.eqb_spec (IBulkInvoiceAction.action action) "delete");
      [contradiction|].
    cbv beta iota zeta. unfold InvoiceLifecycle.throw at 1. cbv beta iota.
    unfold InvoiceLifecycle.ret at 1. rewrite IH.
    cbn [BulkResult.success BulkResult.failed BulkResult.errors length map].
    rewrite <- app_assoc. cbn [app]. do 3 f_equal. lia.
Qed.

(** X29: [bulkAction] never fails and accounts for every invoice it is
    given, whatever the action, the invoices and the steps that fail: the
    successes and the failures add up to the number of identifiers, there
    is one entry of [errors] per failure, and the entries name identifiers
    of the request in the order of the request.  An action other than
    send, mark_paid, mark_cancelled and delete (so also send_reminder and
    export, which the interface declares) fails for every invoice with
    [ValidationError] and writes nothing. *)
Theorem bulkAction_accounts (cascade : bool) (env : nat -> InvoiceLifecycle.Iteration)
    (action : IBulkInvoiceAction.t) (s : InvoiceLifecycle.Ledger) :
  exists res s',
    InvoiceLifecycle.bulkAction cascade env action s = (inr res, s')
    /\ (BulkResult.success res + BulkResult.failed res
        = length (IBulkInvoiceAction.invoice_ids action))%nat
    /\ length (BulkResult.errors res) = BulkResult.failed res
    /\ sublist (map fst (BulkResult.errors res))
         (IBulkInvoiceAction.invoice_ids action)
    /\ (IBulkInvoiceAction.action action <> "send"%string ->
        IBulkInvoiceAction.action action <> "mark_paid"%string ->
        IBulkInvoiceAction.action action <> "mark_cancelled"%string ->
        IBulkInvoiceAction.action action <> "delete"%string ->
        s' = s
        /\ BulkResult.success res = 0%nat
        /\ BulkResult.errors res
           = map (fun invoiceId =>
                    (invoiceId,
                     BulkResult.ValidationError
                       (String.append "Action non supportée: "
                          (IBulkInvoiceAction.action action))))
               (IBulkInvoiceAction.invoice_ids action)).
Proof.
  unfold InvoiceLifecycle.bulkAction, InvoiceLifecycle.try_catch.
  destruct (bulk_loop_accounts cascade env action
              (IBulkInvoiceAction.invoice_ids action) 0 (BulkResult.mk 0 0 []) s)
    as (res & s' & extra & Hrun & Hsum & Herr & Hfail & Hsub).
  rewrite Hrun. exists res, s'. split; [reflexivity|].
  cbn [BulkResult.success BulkResult.failed BulkResult.errors app] in *.
  split; [lia|]. split; [rewrite Herr; lia|]. split; [now rewrite Herr|].
  intros H1 H2 H3 H4.
  rewrite (bulk_loop_unsupported cascade env action _ H1 H2 H3 H4) in Hrun.
  injection Hrun as <- <-. auto.
Qed.

(** The action export on invoices 20 and 30 of the sample ledger. *)
Lemma bulkAction_accounts_witness :
  exists res,
    InvoiceLifecycle.bulkAction true (InvoiceLifecycle.calm 7000)
      (IBulkInvoiceAction.mk "export" [20%N; 30%N] None) Books.ledger
    = (inr res, Books.ledger)
    /\ BulkResult.success res = 0%nat
    /\ BulkResult.failed res = 2%nat
    /\ map snd (BulkResult.errors res)
       = [BulkResult.ValidationError "Action non supportée: export";
          BulkResult.ValidationError "Action non supportée: export"].
Proof.
  destruct (bulkAction_accounts true (InvoiceLifecycle.calm 7000)
              (IBulkInvoiceAction.mk "export" [20%N; 30%N] None) Books.ledger)
    as (res & s' & Hrun & Hsum & _ & _ & H).
  destruct H as (-> & Hsucc & Herr); [cbn; discriminate..|].
  exists res. split; [exact Hrun|]. split; [exact Hsucc|].
  split; [rewrite Hsucc in Hsum; exact Hsum|]. rewrite Herr. reflexivity.
Defined.






